(** * Analytical network back-end: driver and congestion-unaware core

    A shallow embedding of [src/main.cc] (the driver that reads the network
    configuration, selects the topology and wires one adapter, memory and
    system object per device) and of the components the driver relies on:
    the per-dimension hop-count models, the closed-form delay, the composite
    topology, the event queue and the network adapter.

    The driver is embedded statement by statement from the source.  The
    components whose implementation is not part of the repository snapshot
    are embedded from the specification; every such definition says so. *)

From Stdlib Require Import ZArith QArith String List Bool Lia Lqa.
From Stdlib Require Import Sorted Permutation.
Import ListNotations.

Local Open Scope Z_scope.

(** ** C++ data as the driver uses it *)

Module Cxx.

(** [int] is a 32-bit two's complement integer. *)
Definition INT_MIN : Z := - 2 ^ 31.
Definition INT_MAX : Z := 2 ^ 31 - 1.

Definition wrap_int (z : Z) : Z := (z + 2 ^ 31) mod 2 ^ 32 - 2 ^ 31.

(** [a *= b] on [int]: the product, wrapped around outside the range. *)
Definition int_mul (a b : Z) : Z := wrap_int (a * b).

(** [v[i]] on a [std::vector]: defined only for [0 <= i < v.size()]. *)
Definition vector_at {A : Type} (v : list A) (i : Z) : option A :=
  if i <? 0 then None else nth_error v (Z.to_nat i).

(** An [int] object either holds a value or is indeterminate. *)
Inductive int_object : Type :=
| Indeterminate
| Int (value : Z).

(** [std::array<int, n>()]: value-initialisation of an aggregate, every
    element is zero-initialised. *)
Definition array_value_init (n : nat) : list int_object := repeat (Int 0) n.

(** [a[i] = v] on a [std::array], for an index inside the array. *)
Fixpoint array_assign (a : list int_object) (i : nat) (v : Z) : list int_object :=
  match a, i with
  | [], _ => []
  | _ :: rest, O => Int v :: rest
  | x :: rest, S i' => x :: array_assign rest i' v
  end.

(** [a[i]] on a [std::array], for an index inside the array. *)
Definition array_get (a : list int_object) (i : nat) : int_object :=
  nth i a Indeterminate.

End Cxx.

(** ** The driver's inputs *)

(** The fields [main] reads from the JSON network configuration. *)
Record NetworkConfiguration : Type := {
  topology_name : string;
  use_fast_version : bool;
  dimensions_count : Z;
  units_counts : list Z;
  link_latencies : list Q;
  link_bandwidths : list Q;
  nic_latencies : list Q;
  router_latencies : list Q;
  hbm_latencies : list Q;
  hbm_bandwidths : list Q;
  hbm_scales : list Q
}.

(** The network-agnostic values [main] retrieves from the command line. *)
Record CommandLine : Type := {
  system_configuration : string;
  workload_configuration : string;
  num_passes : Z;
  num_queues_per_dim : Z;
  comm_scale : Q;
  compute_scale : Q;
  injection_scale : Q;
  path : string;
  run_name : string;
  total_stat_rows : Z;
  stat_row : Z;
  rendezvous_protocol : bool
}.

(** [Analytical::TopologyConfig], in the order of the constructor call. *)
Record TopologyConfig : Type := {
  npus_count : Z;
  link_latency : Q;
  link_bandwidth : Q;
  nic_latency : Q;
  router_latency : Q;
  hbm_latency : Q;
  hbm_bandwidth : Q;
  hbm_scale : Q
}.

(** The topology objects [main] can create. *)
Inductive Topology : Type :=
| FastSwitch (configs : list TopologyConfig)
| FastTorus2D (configs : list TopologyConfig)
| FastRing (configs : list TopologyConfig).

(** [Analytical::AnalyticalNetwork(i)]. *)
Record AnalyticalNetwork : Type := { rank : Z }.

(** [AstraSim::SimpleMemory(network, 500, 270, 12.5)]. *)
Record SimpleMemory : Type := {
  memory_network : AnalyticalNetwork;
  memory_arguments : Z * Z * Q
}.

(** The arguments of one [AstraSim::Sys] constructor call. *)
Record Sys : Type := {
  sys_network : AnalyticalNetwork;
  sys_memory : SimpleMemory;
  sys_id : Z;
  sys_num_passes : Z;
  sys_dimensions : list Cxx.int_object;
  sys_queues_per_dimension : list Z;
  sys_command_line : CommandLine
}.

(** The local variables of [main] from the instantiation part on. *)
Record MainState : Type := {
  total_npus : Z;
  nodes_count_for_system : list Cxx.int_object;
  topology_configs : list TopologyConfig;
  topology : option Topology;
  analytical_networks : list AnalyticalNetwork;
  memories : list SimpleMemory;
  systems : list Sys;
  linked_topology : option (option Topology)
}.

(** How a prefix of [main] ends: control goes on; [exit] with a status after
    printing; a failed assertion; a vector read out of range, which is
    undefined behaviour; an array declared with a negative number of
    elements, which is undefined behaviour too. *)
Inductive outcome : Type :=
| Continue (st : MainState)
| Exit (status : Z) (printed : string) (st : MainState)
| AssertionFailure (message : string) (st : MainState)
| UndefinedBehavior
| NegativeArraySize.

Definition and_then (o : outcome) (k : MainState -> outcome) : outcome :=
  match o with
  | Continue st => k st
  | other => other
  end.

Notation "'let*' st ':=' o 'in' k" := (and_then o (fun st => k))
  (at level 10, st name, o at level 100, k at level 200).

(** [assert(cond && message)], with assertions compiled in: a false
    condition stops the program with the message. *)
Definition cxx_assert (cond : bool) (message : string) (st : MainState) : outcome :=
  if cond then Continue st else AssertionFailure message st.

(** ** [main], from line 186 *)

(** Lines 186-190. *)
Definition compute_npus_count (units : list Z) : Z :=
  fold_left Cxx.int_mul units 1.

(** Lines 193-196. *)
Fixpoint fill_ones (a : list Cxx.int_object) (i : nat) (count : nat) : list Cxx.int_object :=
  match count with
  | O => a
  | S count' => fill_ones (Cxx.array_assign a i 1) (S i) count'
  end.

Definition init_nodes_count_for_system : list Cxx.int_object :=
  fill_ones (Cxx.array_value_init 5) 0 4.

(** Lines 186-196 and 205: the device count, the node counts and the null
    topology pointer.  The three arrays of lines 199-202 hold nothing yet;
    their declaration is [declare_arrays]. *)
Definition initial_state (json : NetworkConfiguration) : MainState :=
  {| total_npus := compute_npus_count (units_counts json);
     nodes_count_for_system := init_nodes_count_for_system;
     topology_configs := [];
     topology := None;
     analytical_networks := [];
     memories := [];
     systems := [];
     linked_topology := None |}.

(** Lines 199-202: the arrays [analytical_networks], [systems] and
    [memories] are declared with [npus_count] elements.  A negative number of
    elements is undefined behaviour; zero elements are accepted.  The lists
    of the state hold the objects stored in the arrays so far; the storage
    the arrays take is not modelled. *)
Definition declare_arrays (st : MainState) : outcome :=
  if total_npus st <? 0 then NegativeArraySize else Continue st.

(** Lines 211-220: the eight reads of one loop iteration. *)
Definition read_dimension (json : NetworkConfiguration) (i : Z) : option TopologyConfig :=
  match Cxx.vector_at (units_counts json) i,
        Cxx.vector_at (link_latencies json) i,
        Cxx.vector_at (link_bandwidths json) i,
        Cxx.vector_at (nic_latencies json) i,
        Cxx.vector_at (router_latencies json) i,
        Cxx.vector_at (hbm_latencies json) i,
        Cxx.vector_at (hbm_bandwidths json) i,
        Cxx.vector_at (hbm_scales json) i with
  | Some n, Some ll, Some lb, Some nl, Some rl, Some hl, Some hb, Some hs =>
      Some {| npus_count := n; link_latency := ll; link_bandwidth := lb;
              nic_latency := nl; router_latency := rl; hbm_latency := hl;
              hbm_bandwidth := hb; hbm_scale := hs |}
  | _, _, _, _, _, _, _, _ => None
  end.

(** Lines 210-221: [count] iterations remain, the next index is [i]. *)
Fixpoint topology_configs_loop (json : NetworkConfiguration) (count : nat) (i : Z)
    (acc : list TopologyConfig) : option (list TopologyConfig) :=
  match count with
  | O => Some acc
  | S count' =>
      match read_dimension json i with
      | Some tc => topology_configs_loop json count' (i + 1) (acc ++ [tc])
      | None => None
      end
  end.

Definition build_topology_configs (json : NetworkConfiguration) : option (list TopologyConfig) :=
  topology_configs_loop json (Z.to_nat (dimensions_count json)) 0 [].

Definition set_topology_configs (json : NetworkConfiguration) (st : MainState) : outcome :=
  match build_topology_configs json with
  | Some tcs =>
      Continue {| total_npus := total_npus st;
                  nodes_count_for_system := nodes_count_for_system st;
                  topology_configs := tcs;
                  topology := topology st;
                  analytical_networks := analytical_networks st;
                  memories := memories st;
                  systems := systems st;
                  linked_topology := linked_topology st |}
  | None => UndefinedBehavior
  end.

Definition with_topology (t : Topology) (st : MainState) : MainState :=
  {| total_npus := total_npus st;
     nodes_count_for_system := nodes_count_for_system st;
     topology_configs := topology_configs st;
     topology := Some t;
     analytical_networks := analytical_networks st;
     memories := memories st;
     systems := systems st;
     linked_topology := linked_topology st |}.

Definition with_nodes_count (i : nat) (v : Z) (st : MainState) : MainState :=
  {| total_npus := total_npus st;
     nodes_count_for_system := Cxx.array_assign (nodes_count_for_system st) i v;
     topology_configs := topology_configs st;
     topology := topology st;
     analytical_networks := analytical_networks st;
     memories := memories st;
     systems := systems st;
     linked_topology := linked_topology st |}.

Definition not_implemented_message : string := "Detailed version not implemented yet".

Definition dimension_message (name expected : string) : string :=
  "[main] " ++ name ++ " is the given topology but dimension != " ++ expected.

Definition undefined_topology_message (name : string) : string :=
  "[Main] Topology not defined: " ++ name.

(** Lines 227-236, 255-264, 271-280. *)
Definition make_topology (json : NetworkConfiguration)
    (fast : list TopologyConfig -> Topology) (st : MainState) : outcome :=
  if use_fast_version json
  then Continue (with_topology (fast (topology_configs st)) st)
  else Exit (-1) not_implemented_message st.

(** Lines 224-285. *)
Definition instantiate_topology (json : NetworkConfiguration) (st : MainState) : outcome :=
  if (topology_name json =? "Switch")%string then
    let* st := cxx_assert (dimensions_count json =? 1) (dimension_message "Switch" "1") st in
    let* st := make_topology json FastSwitch st in
    Continue (with_nodes_count 2 (total_npus st) st)
  else if (topology_name json =? "AllToAll")%string then
    let* st := cxx_assert (dimensions_count json =? 1) (dimension_message "AllToAll" "1") st in
    Continue st
  else if (topology_name json =? "Torus2D")%string then
    let* st := cxx_assert (dimensions_count json =? 2) (dimension_message "Torus2D" "2") st in
    let* st := make_topology json FastTorus2D st in
    match Cxx.vector_at (units_counts json) 1, Cxx.vector_at (units_counts json) 0 with
    | Some u1, Some u0 => Continue (with_nodes_count 2 u0 (with_nodes_count 1 u1 st))
    | _, _ => UndefinedBehavior
    end
  else if (topology_name json =? "Ring")%string then
    let* st := cxx_assert (dimensions_count json =? 1) (dimension_message "Ring" "1") st in
    let* st := make_topology json FastRing st in
    Continue (with_nodes_count 2 (total_npus st) st)
  else
    Exit (-1) (undefined_topology_message (topology_name json)) st.

(** Lines 289-323: one iteration of the instantiation loop. *)
Definition instantiate_device (cmd : CommandLine) (i : Z) (st : MainState) : MainState :=
  let network := {| rank := i |} in
  let memory := {| memory_network := network; memory_arguments := (500, 270, 25 # 2) |} in
  let nodes := nodes_count_for_system st in
  let q := num_queues_per_dim cmd in
  let system :=
    {| sys_network := network;
       sys_memory := memory;
       sys_id := i;
       sys_num_passes := num_passes cmd;
       sys_dimensions := [Cxx.array_get nodes 0; Cxx.array_get nodes 1;
                          Cxx.array_get nodes 2; Cxx.array_get nodes 3;
                          Cxx.array_get nodes 4];
       sys_queues_per_dimension := [q; q; q; q; q];
       sys_command_line := cmd |} in
  {| total_npus := total_npus st;
     nodes_count_for_system := nodes;
     topology_configs := topology_configs st;
     topology := topology st;
     analytical_networks := analytical_networks st ++ [network];
     memories := memories st ++ [memory];
     systems := systems st ++ [system];
     linked_topology := linked_topology st |}.

(** Lines 288-324: [count] iterations remain, the next index is [i]. *)
Fixpoint instantiate_loop (cmd : CommandLine) (count : nat) (i : Z) (st : MainState) : MainState :=
  match count with
  | O => st
  | S count' => instantiate_loop cmd count' (i + 1) (instantiate_device cmd i st)
  end.

Definition instantiate_layers (cmd : CommandLine) (st : MainState) : MainState :=
  instantiate_loop cmd (Z.to_nat (total_npus st)) 0 st.

(** Line 328: [AnalyticalNetwork::set_topology(topology)]. *)
Definition link_topology (st : MainState) : MainState :=
  {| total_npus := total_npus st;
     nodes_count_for_system := nodes_count_for_system st;
     topology_configs := topology_configs st;
     topology := topology st;
     analytical_networks := analytical_networks st;
     memories := memories st;
     systems := systems st;
     linked_topology := Some (topology st) |}.

(** Lines 186-221: everything before the topology selection. *)
Definition configure (json : NetworkConfiguration) : outcome :=
  let* st := declare_arrays (initial_state json) in
  set_topology_configs json st.

(** [main] from the instantiation part (line 180), with the command line
    and the configuration file already read, up to the start of the event
    loop: [Continue st] is the state in which the workloads are fired.  The
    event queue of line 184 receives no call before the workloads are
    fired. *)
Definition main (cmd : CommandLine) (json : NetworkConfiguration) : outcome :=
  let* st := configure json in
  let* st := instantiate_topology json st in
  Continue (link_topology (instantiate_layers cmd st)).

(** ** The per-dimension hop-count model of [FullyConnected.hh] *)

Module CongestionUnaware.

(** The class as [FullyConnected.hh] declares it: the constructor takes
    [npus_count], [bandwidth] and [latency]. *)
Record FullyConnected : Type := {
  fc_npus_count : Z;
  fc_bandwidth : Q;
  fc_latency : Q
}.

(** The valid domain of the device indices of one dimension. *)
Definition in_range (n i : Z) : bool := (0 <=? i) && (i <? n).

(** Modelled from the spec: the body of [FullyConnected::compute_hops_count],
    which the header only declares.  Every pair of distinct devices is
    directly linked: the hop count is 0 if [src == dest], else 1; an index
    outside [0, npus_count) is a programming error ([None]). *)
Definition compute_hops_count (t : FullyConnected) (src dest : Z) : option Z :=
  if in_range (fc_npus_count t) src && in_range (fc_npus_count t) dest
  then Some (if src =? dest then 0 else 1)
  else None.

End CongestionUnaware.

(** ** The components behind [main]'s includes *)

Module Analytical.

Import CongestionUnaware.

(** Modelled from the spec: the single-dimension topology variants that a
    dimension of the composite topology can have ([topology/Topology.hh] and
    [topology/fast/] are not in the repository snapshot).  Torus2D is two
    stacked Ring dimensions. *)
Inductive BasicTopology : Type :=
| FullyConnectedTopology
| RingTopology
| SwitchTopology.

(** Modelled from the spec: the hop count of each variant, on indices local
    to the dimension; Ring takes the shorter way round the cycle, Switch and
    FullyConnected need one hop between distinct devices. *)
Definition hop_count (shape : BasicTopology) (cfg : TopologyConfig) (src dst : Z) : option Z :=
  let n := npus_count cfg in
  match shape with
  | FullyConnectedTopology =>
      compute_hops_count
        {| fc_npus_count := n; fc_bandwidth := link_bandwidth cfg;
           fc_latency := link_latency cfg |} src dst
  | RingTopology =>
      if in_range n src && in_range n dst
      then Some (Z.min (Z.abs (src - dst)) (n - Z.abs (src - dst)))
      else None
  | SwitchTopology =>
      if in_range n src && in_range n dst
      then Some (if src =? dst then 0 else 1)
      else None
  end.

(** Modelled from the spec: the delay formula of section 4.1. *)
Definition fixed_latency (cfg : TopologyConfig) (hops : Z) : Q :=
  (2 * nic_latency cfg + inject_Z hops * (link_latency cfg + router_latency cfg))%Q.

Definition serialization (cfg : TopologyConfig) (message_size : Z) : Q :=
  (inject_Z message_size / link_bandwidth cfg)%Q.

Definition total_delay (cfg : TopologyConfig) (hops message_size : Z) : Q :=
  (fixed_latency cfg hops + serialization cfg message_size)%Q.

(** Modelled from the spec: one dimension of the composite topology, and
    the composite as the ordered dimension list. *)
Record Dimension : Type := {
  shape : BasicTopology;
  config : TopologyConfig
}.

Definition CompositeTopology : Type := list Dimension.

(** Modelled from the spec: the composite built for each topology object
    [main] creates, one basic topology per configured dimension. *)
Definition composite_of (t : Topology) : CompositeTopology :=
  match t with
  | FastSwitch cfgs => map (fun c => {| shape := SwitchTopology; config := c |}) cfgs
  | FastTorus2D cfgs => map (fun c => {| shape := RingTopology; config := c |}) cfgs
  | FastRing cfgs => map (fun c => {| shape := RingTopology; config := c |}) cfgs
  end.

Definition total_device_count (topo : CompositeTopology) : Z :=
  fold_right (fun d p => npus_count (config d) * p) 1 topo.

(** Modelled from the spec: mixed-radix decomposition of a device id, least
    significant dimension first. *)
Fixpoint coordinates (topo : CompositeTopology) (id : Z) : list Z :=
  match topo with
  | [] => []
  | d :: rest => id mod npus_count (config d) :: coordinates rest (id / npus_count (config d))
  end.

(** Modelled from the spec: the delays of the dimensions in which the
    coordinates differ, summed. *)
Fixpoint dimension_delays (topo : CompositeTopology) (src dst : list Z) (size : Z) : option Q :=
  match topo, src, dst with
  | d :: rest, s :: src', t :: dst' =>
      match dimension_delays rest src' dst' size with
      | Some later =>
          if s =? t then Some later
          else match hop_count (shape d) (config d) s t with
               | Some hops => Some (total_delay (config d) hops size + later)%Q
               | None => None
               end
      | None => None
      end
  | _, _, _ => Some 0%Q
  end.

(** Modelled from the spec: [CompositeTopology.send(src, dst, size)].  A
    self-send is the zero-hop case of the first dimension; a device id out
    of range is a programming error ([None]). *)
Definition send (topo : CompositeTopology) (src dst size : Z) : option Q :=
  if in_range (total_device_count topo) src && in_range (total_device_count topo) dst
  then
    if src =? dst
    then match topo with
         | d :: _ => Some (total_delay (config d) 0 size)
         | [] => None
         end
    else dimension_delays topo (coordinates topo src) (coordinates topo dst) size
  else None.

(** *** The event queue *)

Section EventQueue.

(** What a scheduled entry carries to be invoked. *)
Variable Callback : Type.

(** Modelled from the spec: an entry is [{time, sequence_number, callback}]
    ([event-queue/EventQueueEntry.hh] is not in the repository snapshot). *)
Record EventQueueEntry : Type := {
  time : Q;
  sequence_number : nat;
  callback : Callback
}.

(** Modelled from the spec: the scheduler's state, the simulation clock,
    the counter the sequence numbers come from, and the pending entries
    ([event-queue/EventQueue.hh] is not in the repository snapshot). *)
Record EventQueue : Type := {
  clock : Q;
  next_sequence_number : nat;
  entries : list EventQueueEntry
}.

Definition new_queue : EventQueue :=
  {| clock := 0; next_sequence_number := 0; entries := [] |}.

(** Modelled from the spec: [empty()] is true iff no entries remain. *)
Definition empty (q : EventQueue) : bool :=
  match entries q with
  | [] => true
  | _ :: _ => false
  end.

(** Modelled from the spec: [schedule(delay, callback)] inserts an entry
    at [clock + delay] with a fresh sequence number; a resulting time
    before the clock is rejected ([None]). *)
Definition schedule (delay : Q) (cb : Callback) (q : EventQueue) : option EventQueue :=
  let absolute_time := (clock q + delay)%Q in
  if Qlt_le_dec absolute_time (clock q) then None
  else Some {| clock := clock q;
               next_sequence_number := S (next_sequence_number q);
               entries := entries q ++
                 [{| time := absolute_time;
                     sequence_number := next_sequence_number q;
                     callback := cb |}] |}.

(** The order on [(time, sequence_number)] pairs. *)
Definition earlier (a b : EventQueueEntry) : bool :=
  match (time a ?= time b)%Q with
  | Lt => true
  | Eq => (sequence_number a <? sequence_number b)%nat
  | Gt => false
  end.

(** The entry with the smallest pair among [best :: rest]. *)
Fixpoint smallest (best : EventQueueEntry) (rest : list EventQueueEntry) : EventQueueEntry :=
  match rest with
  | [] => best
  | e :: rest' => smallest (if earlier e best then e else best) rest'
  end.

(** The pending entries without the one numbered [n]. *)
Fixpoint remove_entry (n : nat) (l : list EventQueueEntry) : list EventQueueEntry :=
  match l with
  | [] => []
  | e :: l' => if (sequence_number e =? n)%nat then l' else e :: remove_entry n l'
  end.

(** Modelled from the spec: [proceed()] removes the entry with the
    smallest [(time, sequence_number)] and advances the clock to its time;
    the entry returned is the one whose callback is invoked.  On an empty
    queue it is a no-op. *)
Definition proceed (q : EventQueue) : EventQueue * option EventQueueEntry :=
  match entries q with
  | [] => (q, None)
  | e :: rest =>
      let first := smallest e rest in
      ({| clock := time first;
          next_sequence_number := next_sequence_number q;
          entries := remove_entry (sequence_number first) (entries q) |},
       Some first)
  end.

(** One call on the queue's surface, by the driver or by a callback. *)
Inductive call : EventQueue -> EventQueue -> Prop :=
| call_schedule q delay cb q' : schedule delay cb q = Some q' -> call q q'
| call_proceed q : call q (fst (proceed q)).

(** The queue states any sequence of calls can lead to from [q]. *)
Inductive calls (q : EventQueue) : EventQueue -> Prop :=
| calls_none : calls q q
| calls_more q' q'' : calls q q' -> call q' q'' -> calls q q''.

(** [a] comes before [b]: an earlier time, or the same time and an
    earlier insertion. *)
Definition before (a b : EventQueueEntry) : Prop :=
  (time a < time b)%Q \/
  ((time a == time b)%Q /\ (sequence_number a < sequence_number b)%nat).

(** What running a callback does to the queue (it may call [schedule]). *)
Variable invoke : Callback -> EventQueue -> EventQueue.

(** Lines 339-341 of [main.cc]: [while (!empty()) proceed();], at most
    [fuel] iterations; the result lists the dispatches in order, each
    with the clock at which its callback ran. *)
Fixpoint run_events (fuel : nat) (q : EventQueue) : list (Q * Callback) * EventQueue :=
  match fuel with
  | O => ([], q)
  | S fuel' =>
      if empty q then ([], q)
      else match proceed q with
           | (q', Some e) =>
               let (fired, final) := run_events fuel' (invoke (callback e) q') in
               ((clock q', callback e) :: fired, final)
           | (q', None) => ([], q')
           end
  end.

End EventQueue.

Arguments time {Callback} _.
Arguments sequence_number {Callback} _.
Arguments callback {Callback} _.
Arguments clock {Callback} _.
Arguments next_sequence_number {Callback} _.
Arguments entries {Callback} _.
Arguments new_queue {Callback}.
Arguments empty {Callback} _.
Arguments schedule {Callback} _ _ _.
Arguments earlier {Callback} _ _.
Arguments smallest {Callback} _ _.
Arguments remove_entry {Callback} _ _.
Arguments proceed {Callback} _.
Arguments call {Callback} _ _.
Arguments calls {Callback} _ _.
Arguments before {Callback} _ _.
Arguments run_events {Callback} _ _ _.

(** *** The network adapter *)

(** Modelled from the spec: [send(src, dst, size, completion_callback)] on
    the adapter of device [rank]: [src] must be the adapter's own id; the
    delay comes from the shared composite topology and the completion is
    scheduled on the shared event queue ([api/AnalyticalNetwork.hh] is not
    in the repository snapshot). *)
Definition adapter_send {Callback : Type} (adapter : AnalyticalNetwork)
    (topo : CompositeTopology) (src dst size : Z) (completion : Callback)
    (q : EventQueue Callback) : option (EventQueue Callback) :=
  if src =? rank adapter
  then match send topo src dst size with
       | Some delay => schedule delay completion q
       | None => None
       end
  else None.

(** Modelled from the spec: [now()] reads the simulation clock. *)
Definition now {Callback : Type} (q : EventQueue Callback) : Q := clock q.

End Analytical.

(** ** Vocabulary of the driver's properties *)

(** Every per-dimension array has at least [n] entries. *)
Definition arrays_cover (json : NetworkConfiguration) (n : Z) : Prop :=
  n <= Z.of_nat (length (units_counts json)) /\
  n <= Z.of_nat (length (link_latencies json)) /\
  n <= Z.of_nat (length (link_bandwidths json)) /\
  n <= Z.of_nat (length (nic_latencies json)) /\
  n <= Z.of_nat (length (router_latencies json)) /\
  n <= Z.of_nat (length (hbm_latencies json)) /\
  n <= Z.of_nat (length (hbm_bandwidths json)) /\
  n <= Z.of_nat (length (hbm_scales json)).

(** Some per-dimension array has a length other than [dimensions-count]. *)
Definition array_length_mismatch (json : NetworkConfiguration) : Prop :=
  let n := dimensions_count json in
  Z.of_nat (length (units_counts json)) <> n \/
  Z.of_nat (length (link_latencies json)) <> n \/
  Z.of_nat (length (link_bandwidths json)) <> n \/
  Z.of_nat (length (nic_latencies json)) <> n \/
  Z.of_nat (length (router_latencies json)) <> n \/
  Z.of_nat (length (hbm_latencies json)) <> n \/
  Z.of_nat (length (hbm_bandwidths json)) <> n \/
  Z.of_nat (length (hbm_scales json)) <> n.

(** No adapter, memory or system object exists and nothing is linked. *)
Definition no_layers (st : MainState) : Prop :=
  analytical_networks st = [] /\ memories st = [] /\ systems st = [] /\
  linked_topology st = None.

(** The program stops with a message before the instantiation loop. *)
Definition halts_before_construction (o : outcome) : Prop :=
  match o with
  | Exit _ _ st => no_layers st
  | AssertionFailure _ st => no_layers st
  | Continue _ => False
  | UndefinedBehavior => False
  | NegativeArraySize => False
  end.

(** The dimension count each assertion of lines 225, 239, 253 and 269 asks
    for, with the text it has in the assertion's message. *)
Definition expected_dimensions (name : string) : option (Z * string) :=
  if (name =? "Switch")%string then Some (1, "1"%string)
  else if (name =? "AllToAll")%string then Some (1, "1"%string)
  else if (name =? "Torus2D")%string then Some (2, "2"%string)
  else if (name =? "Ring")%string then Some (1, "1"%string)
  else None.

(** The product of [npus_count] across the dimension list. *)
Definition dimension_product (tcs : list TopologyConfig) : Z :=
  fold_right (fun tc p => npus_count tc * p) 1 tcs.

(** The defaults [main] gives the command-line values. *)
Definition default_command_line : CommandLine :=
  {| system_configuration := "system path not defined";
     workload_configuration := "workload path not defined";
     num_passes := 1;
     num_queues_per_dim := 1;
     comm_scale := 1;
     compute_scale := 1;
     injection_scale := 1;
     path := "path not defined";
     run_name := "unnamed run";
     total_stat_rows := 1;
     stat_row := 0;
     rendezvous_protocol := false |}.

(** A configuration of [dims] dimensions whose latency and bandwidth arrays
    all have [dims] entries. *)
Definition sample_configuration (name : string) (fast : bool) (dims : nat)
    (units : list Z) : NetworkConfiguration :=
  {| topology_name := name;
     use_fast_version := fast;
     dimensions_count := Z.of_nat dims;
     units_counts := units;
     link_latencies := repeat 10%Q dims;
     link_bandwidths := repeat 1%Q dims;
     nic_latencies := repeat 2%Q dims;
     router_latencies := repeat 5%Q dims;
     hbm_latencies := repeat 1%Q dims;
     hbm_bandwidths := repeat 1%Q dims;
     hbm_scales := repeat 1%Q dims |}.

(** One dimension, two devices, topology name "AllToAll". *)
Definition all_to_all_request : NetworkConfiguration :=
  sample_configuration "AllToAll" true 1 [2].

(** One dimension, but two entries in [units-count]. *)
Definition surplus_units_request : NetworkConfiguration :=
  sample_configuration "Ring" true 1 [2; 3].

(** One dimension, but two entries in [hbm-scale]. *)
Definition surplus_hbm_scale_request : NetworkConfiguration :=
  {| topology_name := "Ring";
     use_fast_version := true;
     dimensions_count := 1;
     units_counts := [4];
     link_latencies := [10%Q];
     link_bandwidths := [1%Q];
     nic_latencies := [2%Q];
     router_latencies := [5%Q];
     hbm_latencies := [1%Q];
     hbm_bandwidths := [1%Q];
     hbm_scales := [1%Q; 1%Q] |}.

(** The worked scenario: a ring of four devices in one dimension. *)
Definition ring_of_four : NetworkConfiguration :=
  sample_configuration "Ring" true 1 [4].

(** The state in which [main] reaches the event loop, when it does. *)
Definition event_loop_state (cmd : CommandLine) (json : NetworkConfiguration) : MainState :=
  match main cmd json with
  | Continue st => st
  | _ => initial_state json
  end.

(** The product of the entries of [units-count]. *)
Definition units_product (units : list Z) : Z := fold_right Z.mul 1 units.

(** A topology name the driver has no branch for. *)
Definition mesh_request : NetworkConfiguration :=
  sample_configuration "Mesh" true 1 [4].

(** A Switch request with two dimensions. *)
Definition two_dimensional_switch_request : NetworkConfiguration :=
  sample_configuration "Switch" true 2 [2; 2].

(** A Torus2D request for the detailed (non-fast) version. *)
Definition detailed_torus_request : NetworkConfiguration :=
  sample_configuration "Torus2D" false 2 [2; 3].

(** The [int] multiplications of lines 188-190 stay in range: starting
    from [a], no product of the loop leaves the range of [int]. *)
Fixpoint products_fit (a : Z) (units : list Z) : Prop :=
  match units with
  | [] => True
  | u :: rest =>
      Cxx.INT_MIN <= a * u <= Cxx.INT_MAX /\ products_fit (a * u) rest
  end.


(** A Switch request for the detailed version with no device count. *)
Definition detailed_switch_without_units : NetworkConfiguration :=
  sample_configuration "Switch" false 1 [].

(** A Ring request of two dimensions whose arrays have one entry each. *)
Definition short_two_dimensional_ring : NetworkConfiguration :=
  {| topology_name := "Ring";
     use_fast_version := true;
     dimensions_count := 2;
     units_counts := [4];
     link_latencies := [10%Q];
     link_bandwidths := [1%Q];
     nic_latencies := [2%Q];
     router_latencies := [5%Q];
     hbm_latencies := [1%Q];
     hbm_bandwidths := [1%Q];
     hbm_scales := [1%Q] |}.

(** A torus whose device count does not fit in an [int]. *)
Definition overflowing_torus_request : NetworkConfiguration :=
  sample_configuration "Torus2D" true 2 [65536; 65536].

(** ** Vocabulary of the further properties of the driver *)

(** The objects one iteration of the loop of lines 288-324 creates for
    index [i], given the system-layer node counts. *)
Definition device_network (i : Z) : AnalyticalNetwork := {| rank := i |}.

Definition device_memory (i : Z) : SimpleMemory :=
  {| memory_network := device_network i; memory_arguments := (500, 270, 25 # 2) |}.

Definition device_system (cmd : CommandLine) (nodes : list Cxx.int_object) (i : Z) : Sys :=
  {| sys_network := device_network i;
     sys_memory := device_memory i;
     sys_id := i;
     sys_num_passes := num_passes cmd;
     sys_dimensions := [Cxx.array_get nodes 0; Cxx.array_get nodes 1;
                        Cxx.array_get nodes 2; Cxx.array_get nodes 3;
                        Cxx.array_get nodes 4];
     sys_queues_per_dimension :=
       [num_queues_per_dim cmd; num_queues_per_dim cmd; num_queues_per_dim cmd;
        num_queues_per_dim cmd; num_queues_per_dim cmd];
     sys_command_line := cmd |}.

(** Two configurations that differ at most in the entries of the latency,
    bandwidth and memory arrays beyond the first [dimensions-count]. *)
Definition same_leading_entries (json json' : NetworkConfiguration) : Prop :=
  let n := Z.to_nat (dimensions_count json) in
  topology_name json = topology_name json' /\
  use_fast_version json = use_fast_version json' /\
  dimensions_count json = dimensions_count json' /\
  units_counts json = units_counts json' /\
  firstn n (link_latencies json) = firstn n (link_latencies json') /\
  firstn n (link_bandwidths json) = firstn n (link_bandwidths json') /\
  firstn n (nic_latencies json) = firstn n (nic_latencies json') /\
  firstn n (router_latencies json) = firstn n (router_latencies json') /\
  firstn n (hbm_latencies json) = firstn n (hbm_latencies json') /\
  firstn n (hbm_bandwidths json) = firstn n (hbm_bandwidths json') /\
  firstn n (hbm_scales json) = firstn n (hbm_scales json').

(** A Torus2D request of two by three devices. *)
Definition torus_request : NetworkConfiguration :=
  sample_configuration "Torus2D" true 2 [2; 3].

(** A Ring request with an empty dimension. *)
Definition empty_ring_request : NetworkConfiguration :=
  sample_configuration "Ring" true 1 [0].

(** ** Vocabulary of the event queue's properties *)

(** Every pending entry is due at or after the clock and carries a sequence
    number already handed out, and no two pending entries share one. *)
Definition queue_invariant {Callback : Type} (q : Analytical.EventQueue Callback) : Prop :=
  (forall e, In e (Analytical.entries q) ->
     (Analytical.clock q <= Analytical.time e)%Q /\
     (Analytical.sequence_number e < Analytical.next_sequence_number q)%nat) /\
  NoDup (map Analytical.sequence_number (Analytical.entries q)).

(** A callback that schedules nothing. *)
Definition inert {Callback : Type} (cb : Callback) (q : Analytical.EventQueue Callback) :
    Analytical.EventQueue Callback := q.

(** The queue after [schedule] of A at time 5, B at time 5 and C at time 3,
    in this order, on a new queue. *)
Definition queue_A5_B5_C3 : option (Analytical.EventQueue string) :=
  match Analytical.schedule 5 "A"%string Analytical.new_queue with
  | Some q1 =>
      match Analytical.schedule 5 "B"%string q1 with
      | Some q2 => Analytical.schedule 3 "C"%string q2
      | None => None
      end
  | None => None
  end.

(** The same queue, written out. *)
Definition queue_after_A_B_C : Analytical.EventQueue string :=
  {| Analytical.clock := 0;
     Analytical.next_sequence_number := 3;
     Analytical.entries :=
       [{| Analytical.time := 5; Analytical.sequence_number := 0%nat;
           Analytical.callback := "A"%string |};
        {| Analytical.time := 5; Analytical.sequence_number := 1%nat;
           Analytical.callback := "B"%string |};
        {| Analytical.time := 3; Analytical.sequence_number := 2%nat;
           Analytical.callback := "C"%string |}] |}.

(** The entry scheduled for C. *)
Definition entry_C : Analytical.EventQueueEntry string :=
  {| Analytical.time := 3; Analytical.sequence_number := 2%nat;
     Analytical.callback := "C"%string |}.

(** The worked scenario's dimension: a ring of four devices. *)
Definition ring_dimension : TopologyConfig :=
  {| npus_count := 4; link_latency := 10; link_bandwidth := 1; nic_latency := 2;
     router_latency := 5; hbm_latency := 1; hbm_bandwidth := 1; hbm_scale := 1 |}.

(** A fully connected dimension of four devices. *)
Definition four_fully_connected : CongestionUnaware.FullyConnected :=
  {| CongestionUnaware.fc_npus_count := 4;
     CongestionUnaware.fc_bandwidth := 1;
     CongestionUnaware.fc_latency := 10 |}.

(** * Properties of the driver *)

Lemma wrap_int_in_range z :
  Cxx.INT_MIN <= z <= Cxx.INT_MAX -> Cxx.wrap_int z = z.
Proof.
  unfold Cxx.INT_MIN, Cxx.INT_MAX, Cxx.wrap_int. intros H.
  rewrite Z.mod_small; lia.
Qed.

Lemma vector_at_inside {A : Type} (v : list A) (i : Z) :
  0 <= i < Z.of_nat (length v) -> exists x, Cxx.vector_at v i = Some x.
Proof.
  intros [Hlo Hhi]. unfold Cxx.vector_at.
  destruct (Z.ltb_spec i 0) as [Hneg | _]; [lia |].
  destruct (nth_error v (Z.to_nat i)) as [x |] eqn:E.
  - now exists x.
  - apply nth_error_None in E. lia.
Qed.

Lemma read_dimension_inside json i :
  0 <= i -> arrays_cover json (i + 1) ->
  exists tc, read_dimension json i = Some tc.
Proof.
  intros Hi (H1 & H2 & H3 & H4 & H5 & H6 & H7 & H8). unfold read_dimension.
  destruct (vector_at_inside (units_counts json) i) as [x1 ->]; [lia |].
  destruct (vector_at_inside (link_latencies json) i) as [x2 ->]; [lia |].
  destruct (vector_at_inside (link_bandwidths json) i) as [x3 ->]; [lia |].
  destruct (vector_at_inside (nic_latencies json) i) as [x4 ->]; [lia |].
  destruct (vector_at_inside (router_latencies json) i) as [x5 ->]; [lia |].
  destruct (vector_at_inside (hbm_latencies json) i) as [x6 ->]; [lia |].
  destruct (vector_at_inside (hbm_bandwidths json) i) as [x7 ->]; [lia |].
  destruct (vector_at_inside (hbm_scales json) i) as [x8 ->]; [lia |].
  eauto.
Qed.

Lemma arrays_cover_le json n m : m <= n -> arrays_cover json n -> arrays_cover json m.
Proof. unfold arrays_cover. intros Hle H. repeat split; lia. Qed.

(** The loop of lines 210-221 appends one configuration per index. *)
Lemma topology_configs_loop_inside json count :
  forall i acc, 0 <= i -> arrays_cover json (i + Z.of_nat count) ->
  exists tcs,
    topology_configs_loop json count i acc = Some tcs /\
    length tcs = (length acc + count)%nat /\
    (forall k, (k < length acc)%nat -> nth_error tcs k = nth_error acc k) /\
    (forall k, (k < count)%nat ->
       nth_error tcs (length acc + k) = read_dimension json (i + Z.of_nat k)).
Proof.
  induction count as [| count IH]; intros i acc Hi Hcover; simpl.
  - exists acc. split; [reflexivity |]. split; [lia |].
    split; [reflexivity | intros k Hk; lia].
  - destruct (read_dimension_inside json i Hi) as [tc Htc].
    { eapply arrays_cover_le; [| exact Hcover]. lia. }
    rewrite Htc.
    destruct (IH (i + 1) (acc ++ [tc])) as (tcs & Hrun & Hlen & Hold & Hnew).
    { lia. }
    { eapply arrays_cover_le; [| exact Hcover]. lia. }
    rewrite length_app in Hlen, Hold, Hnew. simpl in Hlen, Hold, Hnew.
    exists tcs. split; [exact Hrun |]. split; [lia |]. split.
    + intros k Hk. rewrite Hold by lia. now apply nth_error_app1.
    + intros [| k] Hk.
      * rewrite Nat.add_0_r, Hold by lia.
        rewrite nth_error_app2, Nat.sub_diag by lia. simpl.
        rewrite <- Htc. f_equal. lia.
      * replace (length acc + S k)%nat with (length acc + 1 + k)%nat by lia.
        rewrite Hnew by lia. f_equal. lia.
Qed.

Lemma build_topology_configs_inside json :
  arrays_cover json (dimensions_count json) ->
  exists tcs,
    build_topology_configs json = Some tcs /\
    length tcs = Z.to_nat (dimensions_count json) /\
    (forall k, (k < Z.to_nat (dimensions_count json))%nat ->
       nth_error tcs k = read_dimension json (Z.of_nat k)).
Proof.
  intros Hcover. unfold build_topology_configs.
  destruct (topology_configs_loop_inside json (Z.to_nat (dimensions_count json)) 0 [])
    as (tcs & Hrun & Hlen & _ & Hnew).
  { lia. }
  { unfold arrays_cover in *. repeat split; lia. }
  exists tcs. split; [exact Hrun |]. split; [exact Hlen |].
  intros k Hk. exact (Hnew k Hk).
Qed.

(** The state after the loop of lines 210-221, when every read is inside
    its array. *)
Lemma set_topology_configs_inside json :
  arrays_cover json (dimensions_count json) ->
  exists st,
    set_topology_configs json (initial_state json) = Continue st /\
    no_layers st /\ topology st = None /\
    build_topology_configs json = Some (topology_configs st).
Proof.
  intros Hcover.
  destruct (build_topology_configs_inside json Hcover) as (tcs & Hrun & _).
  unfold set_topology_configs. rewrite Hrun.
  eexists. split; [reflexivity |]. simpl.
  repeat split; reflexivity.
Qed.

(** The declarations of lines 199-202 decide between the two ways on. *)
Lemma main_cases cmd json :
  (compute_npus_count (units_counts json) < 0 /\ main cmd json = NegativeArraySize) \/
  (0 <= compute_npus_count (units_counts json) /\
   main cmd json =
     let* st := set_topology_configs json (initial_state json) in
     let* st := instantiate_topology json st in
     Continue (link_topology (instantiate_layers cmd st))).
Proof.
  unfold main, configure, declare_arrays. cbn [initial_state total_npus].
  destruct (Z.ltb_spec (compute_npus_count (units_counts json)) 0) as [Hneg | Hpos].
  - left. split; [exact Hneg | reflexivity].
  - right. split; [exact Hpos | reflexivity].
Qed.

Lemma main_with_arrays cmd json :
  0 <= compute_npus_count (units_counts json) ->
  main cmd json =
    let* st := set_topology_configs json (initial_state json) in
    let* st := instantiate_topology json st in
    Continue (link_topology (instantiate_layers cmd st)).
Proof.
  intros Hpos. destruct (main_cases cmd json) as [[Hneg _] | [_ Heq]]; [lia | exact Heq].
Qed.

Lemma array_get_assign_other a : forall i j v,
  i <> j -> Cxx.array_get (Cxx.array_assign a i v) j = Cxx.array_get a j.
Proof.
  unfold Cxx.array_get.
  induction a as [| x a IH]; intros i j v Hij; simpl.
  - reflexivity.
  - destruct i as [| i], j as [| j]; simpl; try reflexivity; try congruence.
    apply IH. congruence.
Qed.

(** What the topology selection leaves untouched when control goes on. *)
Lemma instantiate_topology_continues json st st' :
  instantiate_topology json st = Continue st' ->
  topology_configs st' = topology_configs st /\
  total_npus st' = total_npus st /\
  analytical_networks st' = analytical_networks st /\
  memories st' = memories st /\
  systems st' = systems st /\
  Cxx.array_get (nodes_count_for_system st') 4 =
    Cxx.array_get (nodes_count_for_system st) 4.
Proof.
  unfold instantiate_topology, make_topology, cxx_assert.
  repeat match goal with
         | |- context [if ?b then _ else _] => destruct b; simpl
         | |- context [match Cxx.vector_at ?v ?i with _ => _ end] =>
             destruct (Cxx.vector_at v i); simpl
         end;
    intros H; inversion H; subst; clear H; simpl;
    repeat split; try reflexivity;
    repeat (rewrite array_get_assign_other by discriminate); reflexivity.
Qed.

(** The instantiation loop adds one adapter, memory and system object per
    iteration, each system receiving the five entries of
    [nodes_count_for_system]. *)
Lemma instantiate_loop_adds cmd count : forall i st,
  let st' := instantiate_loop cmd count i st in
  length (analytical_networks st') = (length (analytical_networks st) + count)%nat /\
  length (memories st') = (length (memories st) + count)%nat /\
  length (systems st') = (length (systems st) + count)%nat /\
  topology_configs st' = topology_configs st /\
  topology st' = topology st /\
  total_npus st' = total_npus st /\
  nodes_count_for_system st' = nodes_count_for_system st /\
  forall s, In s (systems st') ->
    In s (systems st) \/
    sys_dimensions s = map (Cxx.array_get (nodes_count_for_system st)) [0; 1; 2; 3; 4]%nat.
Proof.
  induction count as [| count IH]; intros i st; simpl.
  - repeat split; auto; lia.
  - specialize (IH (i + 1) (instantiate_device cmd i st)). simpl in IH.
    rewrite !length_app in IH. simpl in IH.
    destruct IH as (H1 & H2 & H3 & H4 & H5 & H6 & H7 & H8).
    repeat split; try assumption; try lia.
    intros s Hs. destruct (H8 s Hs) as [Hin | Hdims].
    + apply in_app_or in Hin. destruct Hin as [Hin | [<- | []]].
      * now left.
      * right. reflexivity.
    + right. exact Hdims.
Qed.

(** The state in which [main] reaches the event loop. *)
Lemma main_continues cmd json st :
  main cmd json = Continue st ->
  build_topology_configs json = Some (topology_configs st) /\
  length (analytical_networks st) = Z.to_nat (compute_npus_count (units_counts json)) /\
  length (memories st) = Z.to_nat (compute_npus_count (units_counts json)) /\
  length (systems st) = Z.to_nat (compute_npus_count (units_counts json)) /\
  linked_topology st = Some (topology st) /\
  forall s, In s (systems st) -> nth_error (sys_dimensions s) 4 = Some (Cxx.Int 0).
Proof.
  intros Hmain.
  destruct (main_cases cmd json) as [[_ Heq] | [_ Heq]]; rewrite Heq in Hmain;
    [discriminate |].
  revert Hmain. unfold set_topology_configs.
  destruct (build_topology_configs json) as [tcs |] eqn:Hrun; simpl; [| discriminate].
  match goal with
  | |- context [instantiate_topology json ?s] => set (st1 := s)
  end.
  destruct (instantiate_topology json st1) as [st2 | | | |] eqn:Htopo; simpl;
    try discriminate.
  intros H. inversion H; subst; clear H.
  apply instantiate_topology_continues in Htopo.
  destruct Htopo as (T1 & T2 & T3 & T4 & T5 & T6).
  pose proof (instantiate_loop_adds cmd (Z.to_nat (total_npus st2)) 0 st2) as L.
  simpl in L. destruct L as (L1 & L2 & L3 & L4 & L5 & L6 & L7 & L8).
  unfold link_topology, instantiate_layers. simpl.
  split; [rewrite L4, T1; reflexivity |].
  split; [rewrite L1, T3, T2; reflexivity |].
  split; [rewrite L2, T4, T2; reflexivity |].
  split; [rewrite L3, T5, T2; reflexivity |].
  split; [reflexivity |].
  intros s Hs. destruct (L8 s Hs) as [Hin | Hdims].
  - rewrite T5 in Hin. destruct Hin.
  - rewrite Hdims. simpl. rewrite T6. reflexivity.
Qed.

Lemma skipn_nth_error {A : Type} (l : list A) : forall i x,
  nth_error l i = Some x -> skipn i l = x :: skipn (S i) l.
Proof.
  induction l as [| y l IH]; intros [| i] x H; simpl in *; try discriminate.
  - now inversion H.
  - now apply IH.
Qed.

Lemma read_dimension_units json i tc :
  read_dimension json i = Some tc -> 0 <= i ->
  nth_error (units_counts json) (Z.to_nat i) = Some (npus_count tc).
Proof.
  unfold read_dimension. intros H Hi.
  destruct (Cxx.vector_at (units_counts json) i) as [n |] eqn:E; [| discriminate].
  repeat match type of H with
         | match ?o with Some _ => _ | None => _ end = _ => destruct o; [| discriminate]
         end.
  inversion H; subst; clear H. simpl.
  unfold Cxx.vector_at in E. destruct (Z.ltb_spec i 0); [lia | exact E].
Qed.

(** The device counts of the configurations built are the leading entries
    of [units-count]. *)
Lemma topology_configs_loop_units json count : forall i acc tcs,
  topology_configs_loop json count i acc = Some tcs -> 0 <= i ->
  map npus_count tcs =
  map npus_count acc ++ firstn count (skipn (Z.to_nat i) (units_counts json)).
Proof.
  induction count as [| count IH]; intros i acc tcs H Hi; simpl in H.
  - inversion H; subst. simpl. now rewrite app_nil_r.
  - destruct (read_dimension json i) as [tc |] eqn:E; [| discriminate].
    apply IH in H; [| lia]. rewrite H, map_app. simpl.
    apply read_dimension_units in E; [| exact Hi].
    rewrite (skipn_nth_error _ _ _ E). simpl.
    rewrite <- app_assoc. simpl.
    replace (Z.to_nat (i + 1)) with (S (Z.to_nat i)) by lia. reflexivity.
Qed.

Lemma dimension_product_units tcs :
  dimension_product tcs = units_product (map npus_count tcs).
Proof.
  induction tcs as [| tc tcs IH]; simpl; [reflexivity | now rewrite IH].
Qed.

(** A successful run of the loop of lines 210-221 read inside every array. *)
Lemma topology_configs_loop_covered json count : forall i acc tcs,
  topology_configs_loop json count i acc = Some tcs -> 0 <= i ->
  (0 < count)%nat -> arrays_cover json (i + Z.of_nat count).
Proof.
  induction count as [| count IH]; intros i acc tcs H Hi Hcount; [lia |].
  simpl in H. destruct (read_dimension json i) as [tc |] eqn:E; [| discriminate].
  assert (Hone : arrays_cover json (i + 1)).
  { unfold read_dimension in E. unfold arrays_cover.
    repeat match type of E with
           | match Cxx.vector_at ?v i with Some _ => _ | None => _ end = _ =>
               let F := fresh "F" in
               destruct (Cxx.vector_at v i) eqn:F; [| discriminate];
               unfold Cxx.vector_at in F;
               destruct (Z.ltb_spec i 0); [discriminate |];
               assert (nth_error v (Z.to_nat i) <> None) by congruence;
               match goal with
               | N : nth_error v (Z.to_nat i) <> None |- _ => apply nth_error_Some in N
               end
           end.
    repeat split; lia. }
  destruct count as [| count'].
  - exact Hone.
  - specialize (IH (i + 1) (acc ++ [tc]) tcs H).
    replace (i + Z.of_nat (S (S count'))) with (i + 1 + Z.of_nat (S count')) by lia.
    apply IH; lia.
Qed.

Lemma build_topology_configs_covered json tcs :
  build_topology_configs json = Some tcs -> arrays_cover json (dimensions_count json).
Proof.
  unfold build_topology_configs. intros H.
  destruct (Z.to_nat (dimensions_count json)) as [| n] eqn:E.
  - unfold arrays_cover. repeat split; lia.
  - apply topology_configs_loop_covered in H; [| lia | lia].
    rewrite <- E in H. eapply arrays_cover_le; [| exact H]. lia.
Qed.

(** C1.  The "AllToAll" request with one dimension and two devices is not
    rejected: the assertion holds, the branch of lines 238-251 creates no
    topology, and the program goes on to construct the two adapters, memories
    and systems and to link a null topology. *)
Theorem all_to_all_request_reaches_event_loop :
  exists st,
    main default_command_line all_to_all_request = Continue st /\
    topology st = None /\
    linked_topology st = Some None /\
    length (analytical_networks st) = 2%nat /\
    length (memories st) = 2%nat /\
    length (systems st) = 2%nat.
Proof.
  eexists. split; [vm_compute; reflexivity |].
  repeat split.
Qed.

(** C4, as the code has it.  For a topology name with an instantiation
    branch (Switch, Torus2D, Ring) and [use-fast-version = false], when the
    device count is not negative and every per-dimension array has at least
    [dimensions-count] entries, the program stops before any adapter, memory
    or system object exists and without creating a topology: with the message
    "Detailed version not implemented yet" and status -1 when the dimension
    count is the asserted one, and with the failed dimension assertion
    otherwise. *)
Theorem detailed_version_refused cmd json :
  0 <= compute_npus_count (units_counts json) ->
  arrays_cover json (dimensions_count json) ->
  topology_name json = "Switch"%string \/
  topology_name json = "Torus2D"%string \/
  topology_name json = "Ring"%string ->
  use_fast_version json = false ->
  exists st d text,
    expected_dimensions (topology_name json) = Some (d, text) /\
    no_layers st /\ topology st = None /\
    main cmd json =
      (if dimensions_count json =? d
       then Exit (-1) "Detailed version not implemented yet" st
       else AssertionFailure
              ("[main] " ++ topology_name json ++
               " is the given topology but dimension != " ++ text) st) /\
    halts_before_construction (main cmd json).
Proof.
  intros Hpos Hcover Hname Hfast.
  destruct (set_topology_configs_inside json Hcover) as (st & Hst & Hno & Htopo & _).
  assert (Hmain : main cmd json =
                  let* st' := instantiate_topology json st in
                  Continue (link_topology (instantiate_layers cmd st'))).
  { rewrite (main_with_arrays cmd json Hpos), Hst. reflexivity. }
  assert (Hcase : forall d text,
            expected_dimensions (topology_name json) = Some (d, text) ->
            main cmd json =
              (if dimensions_count json =? d
               then Exit (-1) "Detailed version not implemented yet" st
               else AssertionFailure
                      ("[main] " ++ topology_name json ++
                       " is the given topology but dimension != " ++ text) st) ->
            exists st d text,
              expected_dimensions (topology_name json) = Some (d, text) /\
              no_layers st /\ topology st = None /\
              main cmd json =
                (if dimensions_count json =? d
                 then Exit (-1) "Detailed version not implemented yet" st
                 else AssertionFailure
                        ("[main] " ++ topology_name json ++
                         " is the given topology but dimension != " ++ text) st) /\
              halts_before_construction (main cmd json)).
  { intros d text He Hm. exists st, d, text.
    split; [exact He |]. split; [exact Hno |]. split; [exact Htopo |].
    split; [exact Hm |].
    rewrite Hm. destruct (dimensions_count json =? d); exact Hno. }
  destruct Hname as [Hn | [Hn | Hn]].
  - apply (Hcase 1 "1"%string); [rewrite Hn; reflexivity |].
    rewrite Hmain. unfold instantiate_topology, make_topology, cxx_assert.
    rewrite Hn, Hfast. simpl. destruct (dimensions_count json =? 1); reflexivity.
  - apply (Hcase 2 "2"%string); [rewrite Hn; reflexivity |].
    rewrite Hmain. unfold instantiate_topology, make_topology, cxx_assert.
    rewrite Hn, Hfast. simpl. destruct (dimensions_count json =? 2); reflexivity.
  - apply (Hcase 1 "1"%string); [rewrite Hn; reflexivity |].
    rewrite Hmain. unfold instantiate_topology, make_topology, cxx_assert.
    rewrite Hn, Hfast. simpl. destruct (dimensions_count json =? 1); reflexivity.
Qed.

Lemma detailed_version_refused_witness :
  exists st d text,
    expected_dimensions (topology_name detailed_torus_request) = Some (d, text) /\
    no_layers st /\ topology st = None /\
    main default_command_line detailed_torus_request =
      (if dimensions_count detailed_torus_request =? d
       then Exit (-1) "Detailed version not implemented yet" st
       else AssertionFailure
              ("[main] " ++ topology_name detailed_torus_request ++
               " is the given topology but dimension != " ++ text) st) /\
    halts_before_construction (main default_command_line detailed_torus_request).
Proof.
  apply (detailed_version_refused default_command_line detailed_torus_request).
  - vm_compute. discriminate.
  - unfold arrays_cover. simpl. repeat split; lia.
  - right. left. reflexivity.
  - reflexivity.
Defined.

(** C4, as stated, fails: a Switch request for the detailed version with
    one dimension and an empty [units-count] array reads [units_counts[0]]
    out of range in the loop of lines 210-221, before the branch that prints
    the message. *)
Lemma detailed_request_without_units_is_not_refused :
  topology_name detailed_switch_without_units = "Switch"%string /\
  use_fast_version detailed_switch_without_units = false /\
  main default_command_line detailed_switch_without_units = UndefinedBehavior /\
  ~ halts_before_construction (main default_command_line detailed_switch_without_units).
Proof.
  split; [reflexivity |]. split; [reflexivity |]. split; [reflexivity |].
  vm_compute. intros H. exact H.
Qed.




(** A device count that wraps to a negative number stops the program at
    the array declarations of lines 199-202, whatever the topology name. *)
Example negative_device_count_stops_at_the_arrays :
  compute_npus_count [46341; 46341] < 0 /\
  main default_command_line (sample_configuration "Mesh" true 2 [46341; 46341]) =
    NegativeArraySize.
Proof. split; reflexivity. Qed.

Lemma configure_with_arrays json :
  0 <= compute_npus_count (units_counts json) ->
  configure json = set_topology_configs json (initial_state json).
Proof.
  intros Hpos. unfold configure, declare_arrays. cbn [initial_state total_npus].
  destruct (Z.ltb_spec (compute_npus_count (units_counts json)) 0); [lia | reflexivity].
Qed.

(** The configuration of one dimension is made of the entries at its index. *)
Lemma read_dimension_entries json i tc :
  read_dimension json i = Some tc -> 0 <= i ->
  nth_error (units_counts json) (Z.to_nat i) = Some (npus_count tc) /\
  nth_error (link_latencies json) (Z.to_nat i) = Some (link_latency tc) /\
  nth_error (link_bandwidths json) (Z.to_nat i) = Some (link_bandwidth tc) /\
  nth_error (nic_latencies json) (Z.to_nat i) = Some (nic_latency tc) /\
  nth_error (router_latencies json) (Z.to_nat i) = Some (router_latency tc) /\
  nth_error (hbm_latencies json) (Z.to_nat i) = Some (hbm_latency tc) /\
  nth_error (hbm_bandwidths json) (Z.to_nat i) = Some (hbm_bandwidth tc) /\
  nth_error (hbm_scales json) (Z.to_nat i) = Some (hbm_scale tc).
Proof.
  unfold read_dimension, Cxx.vector_at. intros H Hi.
  destruct (Z.ltb_spec i 0); [lia |].
  destruct (nth_error (units_counts json) (Z.to_nat i)); [| discriminate].
  destruct (nth_error (link_latencies json) (Z.to_nat i)); [| discriminate].
  destruct (nth_error (link_bandwidths json) (Z.to_nat i)); [| discriminate].
  destruct (nth_error (nic_latencies json) (Z.to_nat i)); [| discriminate].
  destruct (nth_error (router_latencies json) (Z.to_nat i)); [| discriminate].
  destruct (nth_error (hbm_latencies json) (Z.to_nat i)); [| discriminate].
  destruct (nth_error (hbm_bandwidths json) (Z.to_nat i)); [| discriminate].
  destruct (nth_error (hbm_scales json) (Z.to_nat i)); [| discriminate].
  inversion H; subst; clear H. simpl. repeat split.
Qed.

(** C6, as the code has it.  The driver never compares the length of an
    array with [dimensions-count].  With a device count that is not negative:
    when every per-dimension array has at least [dimensions-count] entries,
    the loop of lines 210-221 builds exactly [dimensions-count] topology
    configurations, the k-th holding the k-th entry of each of the eight
    arrays, and control goes on, surplus entries being no error; when some
    array has fewer entries, the loop reads it out of range instead of
    reporting a configuration error. *)
Theorem topology_configs_from_leading_entries json :
  0 <= compute_npus_count (units_counts json) ->
  (arrays_cover json (dimensions_count json) ->
   exists st,
     configure json = Continue st /\
     length (topology_configs st) = Z.to_nat (dimensions_count json) /\
     forall k tc, nth_error (topology_configs st) k = Some tc ->
       nth_error (units_counts json) k = Some (npus_count tc) /\
       nth_error (link_latencies json) k = Some (link_latency tc) /\
       nth_error (link_bandwidths json) k = Some (link_bandwidth tc) /\
       nth_error (nic_latencies json) k = Some (nic_latency tc) /\
       nth_error (router_latencies json) k = Some (router_latency tc) /\
       nth_error (hbm_latencies json) k = Some (hbm_latency tc) /\
       nth_error (hbm_bandwidths json) k = Some (hbm_bandwidth tc) /\
       nth_error (hbm_scales json) k = Some (hbm_scale tc)) /\
  (~ arrays_cover json (dimensions_count json) ->
   configure json = UndefinedBehavior /\
   forall cmd, main cmd json = UndefinedBehavior).
Proof.
  intros Hpos. split.
  - intros Hcover.
    destruct (set_topology_configs_inside json Hcover) as (st & Hst & _ & _ & Hrun).
    destruct (build_topology_configs_inside json Hcover) as (tcs & Hrun' & Hlen & Hnth).
    rewrite Hrun in Hrun'. inversion Hrun'; subst tcs.
    exists st. split; [rewrite configure_with_arrays by exact Hpos; exact Hst |].
    split; [exact Hlen |].
    intros k tc Hk.
    assert (Hlt : (k < Z.to_nat (dimensions_count json))%nat).
    { rewrite <- Hlen. apply nth_error_Some. congruence. }
    rewrite (Hnth k Hlt) in Hk.
    apply read_dimension_entries in Hk; [| lia].
    rewrite Nat2Z.id in Hk. exact Hk.
  - intros Hshort.
    assert (Hconf : configure json = UndefinedBehavior).
    { rewrite configure_with_arrays by exact Hpos. unfold set_topology_configs.
      destruct (build_topology_configs json) as [tcs |] eqn:Hrun; [| reflexivity].
      exfalso. apply Hshort. eapply build_topology_configs_covered. exact Hrun. }
    split; [exact Hconf |]. intros cmd. unfold main. rewrite Hconf. reflexivity.
Qed.

Lemma topology_configs_from_leading_entries_witness :
  exists st,
    configure surplus_hbm_scale_request = Continue st /\
    length (topology_configs st) = Z.to_nat (dimensions_count surplus_hbm_scale_request) /\
    forall k tc, nth_error (topology_configs st) k = Some tc ->
      nth_error (units_counts surplus_hbm_scale_request) k = Some (npus_count tc) /\
      nth_error (link_latencies surplus_hbm_scale_request) k = Some (link_latency tc) /\
      nth_error (link_bandwidths surplus_hbm_scale_request) k = Some (link_bandwidth tc) /\
      nth_error (nic_latencies surplus_hbm_scale_request) k = Some (nic_latency tc) /\
      nth_error (router_latencies surplus_hbm_scale_request) k = Some (router_latency tc) /\
      nth_error (hbm_latencies surplus_hbm_scale_request) k = Some (hbm_latency tc) /\
      nth_error (hbm_bandwidths surplus_hbm_scale_request) k = Some (hbm_bandwidth tc) /\
      nth_error (hbm_scales surplus_hbm_scale_request) k = Some (hbm_scale tc).
Proof.
  apply (proj1 (topology_configs_from_leading_entries surplus_hbm_scale_request
                  ltac:(vm_compute; discriminate))).
  unfold arrays_cover. simpl. repeat split; lia.
Defined.

(** C6, as stated, fails: a Ring configuration of one dimension whose
    [hbm-scale] array has two entries is not reported; the program builds the
    ring of four devices and reaches the event loop. *)
Lemma surplus_hbm_scale_not_rejected :
  array_length_mismatch surplus_hbm_scale_request /\
  ~ halts_before_construction (main default_command_line surplus_hbm_scale_request) /\
  exists st,
    main default_command_line surplus_hbm_scale_request = Continue st /\
    length (systems st) = 4%nat.
Proof.
  split; [| split].
  - unfold array_length_mismatch. simpl. repeat right. discriminate.
  - vm_compute. intros H. exact H.
  - eexists. split; [vm_compute; reflexivity | reflexivity].
Qed.

(** An array shorter than [dimensions-count] is read past its end. *)
Example short_array_is_read_out_of_range :
  main default_command_line (sample_configuration "Ring" true 1 []) = UndefinedBehavior.
Proof. reflexivity. Qed.

(** C7, as the code has it.  When the device count is not negative and
    every per-dimension array has at least [dimensions-count] entries, a
    dimension count other than the one the topology's assertion asks for (1
    for Switch, AllToAll and Ring, 2 for Torus2D) fails the assertion, whose
    message is "[main] <name> is the given topology but dimension != <count>",
    before any adapter, memory or system object exists. *)
Theorem dimension_count_mismatch_aborts cmd json d text :
  0 <= compute_npus_count (units_counts json) ->
  arrays_cover json (dimensions_count json) ->
  expected_dimensions (topology_name json) = Some (d, text) ->
  dimensions_count json <> d ->
  exists st,
    main cmd json =
      AssertionFailure
        ("[main] " ++ topology_name json ++
         " is the given topology but dimension != " ++ text) st /\
    no_layers st /\
    halts_before_construction (main cmd json).
Proof.
  intros Hpos Hcover Hexp Hdims.
  destruct (set_topology_configs_inside json Hcover) as (st & Hst & Hno & _).
  assert (Hmain : main cmd json =
                  AssertionFailure
                    ("[main] " ++ topology_name json ++
                     " is the given topology but dimension != " ++ text) st).
  { rewrite (main_with_arrays cmd json Hpos), Hst. simpl.
    unfold expected_dimensions in Hexp. unfold instantiate_topology, cxx_assert.
    destruct (String.eqb_spec (topology_name json) "Switch") as [-> | _];
      [inversion Hexp; subst; apply Z.eqb_neq in Hdims; rewrite Hdims; reflexivity |].
    destruct (String.eqb_spec (topology_name json) "AllToAll") as [-> | _];
      [inversion Hexp; subst; apply Z.eqb_neq in Hdims; rewrite Hdims; reflexivity |].
    destruct (String.eqb_spec (topology_name json) "Torus2D") as [-> | _];
      [inversion Hexp; subst; apply Z.eqb_neq in Hdims; rewrite Hdims; reflexivity |].
    destruct (String.eqb_spec (topology_name json) "Ring") as [-> | _];
      [inversion Hexp; subst; apply Z.eqb_neq in Hdims; rewrite Hdims; reflexivity |].
    discriminate. }
  exists st. split; [exact Hmain |]. split; [exact Hno |]. rewrite Hmain. exact Hno.
Qed.

Lemma dimension_count_mismatch_aborts_witness :
  exists st,
    main default_command_line two_dimensional_switch_request =
      AssertionFailure "[main] Switch is the given topology but dimension != 1" st /\
    no_layers st /\
    halts_before_construction (main default_command_line two_dimensional_switch_request).
Proof.
  apply (dimension_count_mismatch_aborts default_command_line
           two_dimensional_switch_request 1 "1"%string).
  - vm_compute. discriminate.
  - unfold arrays_cover. simpl. repeat split; lia.
  - reflexivity.
  - discriminate.
Defined.

(** C7, as stated, fails: a Ring request with [dimensions-count] 2 whose
    arrays have one entry each reads [units_counts[1]] out of range in the
    loop of lines 210-221, before the assertion of line 269. *)
Lemma short_two_dimensional_ring_does_not_reach_assertion :
  expected_dimensions (topology_name short_two_dimensional_ring) = Some (1, "1"%string) /\
  dimensions_count short_two_dimensional_ring <> 1 /\
  main default_command_line short_two_dimensional_ring = UndefinedBehavior /\
  ~ halts_before_construction (main default_command_line short_two_dimensional_ring).
Proof.
  split; [reflexivity |]. split; [discriminate |]. split; [reflexivity |].
  vm_compute. intros H. exact H.
Qed.

(** Without overflow the loop of lines 188-190 computes the product. *)
Lemma fold_int_mul_fits units : forall a,
  products_fit a units ->
  fold_left Cxx.int_mul units a = a * units_product units.
Proof.
  induction units as [| u units IH]; intros a Hfit; simpl in *.
  - lia.
  - destruct Hfit as [Hrange Hrest].
    assert (Hau : Cxx.int_mul a u = a * u).
    { unfold Cxx.int_mul. apply wrap_int_in_range. exact Hrange. }
    rewrite Hau, (IH _ Hrest). lia.
Qed.

(** C8, as the code has it.  In a run that reaches the construction of the
    devices, when [units-count] has exactly [dimensions-count] entries and the
    [int] multiplications of lines 188-190 do not overflow, the numbers of
    adapters, memories and system objects created all equal the product of
    the device counts across the dimension list. *)
Theorem device_count_is_dimension_product cmd json st :
  main cmd json = Continue st ->
  length (units_counts json) = Z.to_nat (dimensions_count json) ->
  products_fit 1 (units_counts json) ->
  Z.of_nat (length (analytical_networks st)) = dimension_product (topology_configs st) /\
  Z.of_nat (length (memories st)) = dimension_product (topology_configs st) /\
  Z.of_nat (length (systems st)) = dimension_product (topology_configs st).
Proof.
  intros Hmain Hlen Hfit.
  destruct (main_continues cmd json st Hmain) as (Hrun & Hn & Hm & Hs & _).
  assert (Hpos : 0 <= compute_npus_count (units_counts json)).
  { destruct (main_cases cmd json) as [[_ Heq] | [Hpos _]]; [| exact Hpos].
    rewrite Heq in Hmain. discriminate. }
  unfold build_topology_configs in Hrun.
  apply topology_configs_loop_units in Hrun; [| lia].
  simpl in Hrun. rewrite <- Hlen, firstn_all in Hrun.
  rewrite dimension_product_units, Hrun.
  assert (Hcount : compute_npus_count (units_counts json) =
                   units_product (units_counts json)).
  { unfold compute_npus_count. rewrite (fold_int_mul_fits _ _ Hfit). lia. }
  rewrite Hn, Hm, Hs. rewrite Hcount in *. repeat split; lia.
Qed.

Lemma device_count_is_dimension_product_witness :
  let st := event_loop_state default_command_line ring_of_four in
  Z.of_nat (length (analytical_networks st)) = dimension_product (topology_configs st) /\
  Z.of_nat (length (memories st)) = dimension_product (topology_configs st) /\
  Z.of_nat (length (systems st)) = dimension_product (topology_configs st).
Proof.
  apply (device_count_is_dimension_product default_command_line ring_of_four).
  - reflexivity.
  - reflexivity.
  - simpl. split; [| exact I]. split; vm_compute; discriminate.
Defined.

(** C8, as stated, fails: for a Ring configuration of one dimension whose
    [units-count] array is [2, 3], six adapters, memories and systems are
    created, while the dimension list holds the single dimension of two
    devices. *)
Lemma surplus_units_device_count :
  exists st,
    main default_command_line surplus_units_request = Continue st /\
    length (analytical_networks st) = 6%nat /\
    length (memories st) = 6%nat /\
    length (systems st) = 6%nat /\
    dimension_product (topology_configs st) = 2 /\
    Z.of_nat (length (systems st)) <> dimension_product (topology_configs st).
Proof.
  eexists. split; [vm_compute; reflexivity |].
  repeat split. discriminate.
Qed.

(** When the multiplication overflows, the device count is the wrapped
    product: a torus of 65536 by 65536 creates no device. *)
Example overflowing_units_create_no_device :
  exists st,
    main default_command_line overflowing_torus_request = Continue st /\
    systems st = [] /\
    dimension_product (topology_configs st) = 2 ^ 32.
Proof.
  eexists. split; [vm_compute; reflexivity |]. split; reflexivity.
Qed.

(** C10, as the code has it.  The loop of lines 194-196 writes the first
    four elements only, and the fifth keeps the zero that the
    value-initialisation of line 193 gave it: every system object receives
    the value 0 as its fifth dimension. *)
Theorem fifth_dimension_is_zero cmd json st s :
  main cmd json = Continue st ->
  In s (systems st) ->
  nth_error (sys_dimensions s) 4 = Some (Cxx.Int 0) /\
  Cxx.array_get init_nodes_count_for_system 4 = Cxx.Int 0 /\
  fill_ones (Cxx.array_value_init 5) 0 4 =
    [Cxx.Int 1; Cxx.Int 1; Cxx.Int 1; Cxx.Int 1; Cxx.Int 0].
Proof.
  intros Hmain Hs.
  destruct (main_continues cmd json st Hmain) as (_ & _ & _ & _ & _ & Hfifth).
  split; [exact (Hfifth s Hs) |]. split; reflexivity.
Qed.

Lemma fifth_dimension_is_zero_witness :
  Forall (fun s => nth_error (sys_dimensions s) 4 = Some (Cxx.Int 0))
    (systems (event_loop_state default_command_line ring_of_four)).
Proof.
  apply Forall_forall. intros s Hs.
  apply (fifth_dimension_is_zero default_command_line ring_of_four
           (event_loop_state default_command_line ring_of_four) s).
  - reflexivity.
  - exact Hs.
Defined.

(** C10, as stated, fails: in the run of the ring of four devices, which
    reaches the construction of the system objects, the fifth dimension
    handed to each of them is the integer 0, not an indeterminate value. *)
Lemma fifth_dimension_is_determinate :
  exists st,
    main default_command_line ring_of_four = Continue st /\
    length (systems st) = 4%nat /\
    Forall (fun s => Cxx.array_get (sys_dimensions s) 4 = Cxx.Int 0 /\
                     Cxx.array_get (sys_dimensions s) 4 <> Cxx.Indeterminate)
      (systems st).
Proof.
  eexists. split; [vm_compute; reflexivity |]. split; [reflexivity |].
  repeat constructor; discriminate.
Qed.

(** * Properties of the fully connected dimension *)

(** C9.  In a fully connected dimension of [n] devices, for all indices
    [i] and [j] in [0, n), the hop count is 0 when [i = j] and 1 when
    [i <> j], and it is symmetric. *)
Theorem fully_connected_hops_count t i j :
  0 <= i < CongestionUnaware.fc_npus_count t ->
  0 <= j < CongestionUnaware.fc_npus_count t ->
  (i = j -> CongestionUnaware.compute_hops_count t i j = Some 0) /\
  (i <> j -> CongestionUnaware.compute_hops_count t i j = Some 1) /\
  CongestionUnaware.compute_hops_count t i j = CongestionUnaware.compute_hops_count t j i.
Proof.
  intros Hi Hj. unfold CongestionUnaware.compute_hops_count, CongestionUnaware.in_range.
  assert (Ri : (0 <=? i) && (i <? CongestionUnaware.fc_npus_count t) = true).
  { apply andb_true_intro. split; [apply Z.leb_le | apply Z.ltb_lt]; lia. }
  assert (Rj : (0 <=? j) && (j <? CongestionUnaware.fc_npus_count t) = true).
  { apply andb_true_intro. split; [apply Z.leb_le | apply Z.ltb_lt]; lia. }
  rewrite Ri, Rj. simpl. repeat split.
  - intros ->. now rewrite Z.eqb_refl.
  - intros Hne. apply Z.eqb_neq in Hne. now rewrite Hne.
  - now rewrite (Z.eqb_sym i j).
Qed.

Lemma fully_connected_hops_count_witness :
  (0 = 2 -> CongestionUnaware.compute_hops_count four_fully_connected 0 2 = Some 0) /\
  (0 <> 2 -> CongestionUnaware.compute_hops_count four_fully_connected 0 2 = Some 1) /\
  CongestionUnaware.compute_hops_count four_fully_connected 0 2 =
  CongestionUnaware.compute_hops_count four_fully_connected 2 0.
Proof.
  apply (fully_connected_hops_count four_fully_connected 0 2); simpl; lia.
Defined.

(** * Properties of the event queue *)

Section EventQueueOrder.

Import Analytical.

Context {Callback : Type}.

Implicit Types a b c e x : EventQueueEntry Callback.
Implicit Types q : EventQueue Callback.

Lemma earlier_before a b : earlier a b = true <-> before a b.
Proof.
  unfold earlier, before.
  destruct (Qcompare_spec (time a) (time b)) as [H | H | H].
  - rewrite Nat.ltb_lt. split.
    + intros Hs. right. split; assumption.
    + intros [Hlt | [_ Hs]]; [lra | exact Hs].
  - split; [intros _; left; exact H | reflexivity].
  - split; [discriminate | intros [Hlt | [He _]]; lra].
Qed.

(** [a] is not after [b]. *)
Lemma not_before a b :
  ~ before b a <->
  (time a <= time b)%Q /\ ((time a == time b)%Q -> (sequence_number a <= sequence_number b)%nat).
Proof.
  unfold before. split.
  - intros H. split.
    + destruct (Qlt_le_dec (time b) (time a)) as [Hlt | Hle]; [| exact Hle].
      exfalso. apply H. left. exact Hlt.
    + intros He. destruct (Nat.le_gt_cases (sequence_number a) (sequence_number b))
        as [Hle | Hgt]; [exact Hle |].
      exfalso. apply H. right. split; [symmetry; exact He | exact Hgt].
  - intros [Hle Hseq] [Hlt | [He Hs]]; [lra |].
    assert (Hseq' : (sequence_number a <= sequence_number b)%nat)
      by (apply Hseq; symmetry; exact He).
    lia.
Qed.

Lemma before_irrefl a : ~ before a a.
Proof. apply not_before. split; [lra | lia]. Qed.

Lemma not_before_trans a b c : ~ before b a -> ~ before c b -> ~ before c a.
Proof.
  rewrite !not_before. intros [H1 S1] [H2 S2]. split; [lra |].
  intros He.
  assert (E1 : (time a == time b)%Q) by lra.
  assert (E2 : (time b == time c)%Q) by lra.
  specialize (S1 E1). specialize (S2 E2). lia.
Qed.

Lemma before_not_before a b : before a b -> ~ before b a.
Proof.
  intros [Hlt | [He Hs]]; apply not_before.
  - split; [lra | intros E; lra].
  - split; [lra | intros _; lia].
Qed.

(** [smallest] returns a member that no member comes before. *)
Lemma smallest_least rest : forall best,
  In (smallest best rest) (best :: rest) /\
  forall x, In x (best :: rest) -> ~ before x (smallest best rest).
Proof.
  induction rest as [| e rest IH]; intros best; simpl.
  - split; [left; reflexivity |]. intros x [<- | []]. apply before_irrefl.
  - destruct (IH (if earlier e best then e else best)) as [Hin Hmin].
    split.
    + destruct Hin as [Hb | Hr]; [| right; right; exact Hr].
      rewrite <- Hb. destruct (earlier e best); [right; left | left]; reflexivity.
    + intros x [Hx | [Hx | Hx]].
      * subst x. destruct (earlier e best) eqn:E.
        -- apply earlier_before in E.
           eapply not_before_trans; [apply Hmin; left; reflexivity |].
           apply before_not_before. exact E.
        -- apply Hmin. left. reflexivity.
      * subst x. destruct (earlier e best) eqn:E.
        -- apply Hmin. left. reflexivity.
        -- assert (Hnb : ~ before e best).
           { intros Hb. apply earlier_before in Hb. congruence. }
           eapply not_before_trans; [apply Hmin; left; reflexivity | exact Hnb].
      * apply Hmin. right. exact Hx.
Qed.

Lemma remove_entry_incl n (l : list (EventQueueEntry Callback)) x :
  In x (remove_entry n l) -> In x l.
Proof.
  induction l as [| e l IH]; simpl; [tauto |].
  destruct (sequence_number e =? n)%nat; simpl; intuition.
Qed.

Lemma remove_entry_nodup n (l : list (EventQueueEntry Callback)) :
  NoDup (map sequence_number l) -> NoDup (map sequence_number (remove_entry n l)).
Proof.
  induction l as [| e l IH]; simpl; intros H; [exact H |].
  inversion H as [| ? ? Hnot Hrest]; subst.
  destruct (sequence_number e =? n)%nat; simpl; [exact Hrest |].
  constructor; [| apply IH; exact Hrest].
  intros Hin. apply Hnot. apply in_map_iff in Hin. destruct Hin as (x & Hx & Hin).
  apply in_map_iff. exists x. split; [exact Hx |].
  eapply remove_entry_incl. exact Hin.
Qed.

Lemma same_number_same_entry (l : list (EventQueueEntry Callback)) x e :
  NoDup (map sequence_number l) -> In x l -> In e l ->
  sequence_number x = sequence_number e -> x = e.
Proof.
  induction l as [| y l IH]; simpl; intros H Hx He Hs; [contradiction |].
  inversion H as [| ? ? Hnot Hrest]; subst.
  destruct Hx as [Hx | Hx], He as [He | He]; subst.
  - reflexivity.
  - exfalso. apply Hnot. rewrite Hs. now apply in_map.
  - exfalso. apply Hnot. rewrite <- Hs. now apply in_map.
  - now apply IH.
Qed.

Lemma invariant_new : queue_invariant (@new_queue Callback).
Proof. split; simpl; [intros e [] | constructor]. Qed.

(** [schedule] keeps the invariant and leaves the clock alone. *)
Lemma invariant_schedule q delay cb q' :
  queue_invariant q -> schedule delay cb q = Some q' ->
  queue_invariant q' /\ clock q' = clock q.
Proof.
  intros [Hdue Hnodup]. unfold schedule.
  destruct (Qlt_le_dec (clock q + delay) (clock q)) as [_ | Hle]; [discriminate |].
  intros H. inversion H; subst; clear H. simpl. split; [| reflexivity].
  split; simpl.
  - intros e He. apply in_app_or in He. destruct He as [He | [<- | []]]; simpl.
    + destruct (Hdue e He). split; [assumption | lia].
    + split; [exact Hle | lia].
  - rewrite map_app. simpl. apply NoDup_app; [exact Hnodup | repeat constructor; intros [] |].
    intros n Hn [<- | []]. apply in_map_iff in Hn. destruct Hn as (e & He & Hin).
    destruct (Hdue e Hin). lia.
Qed.

(** [proceed] on a queue that satisfies the invariant. *)
Lemma proceed_least q q' e :
  queue_invariant q -> proceed q = (q', Some e) ->
  In e (entries q) /\
  (forall x, In x (entries q) -> x <> e -> before e x) /\
  clock q' = time e /\
  (clock q <= clock q')%Q /\
  queue_invariant q'.
Proof.
  intros [Hdue Hnodup]. unfold proceed.
  destruct (entries q) as [| e0 rest] eqn:Hentries; [discriminate |].
  intros H. inversion H; subst; clear H.
  cbn [clock entries next_sequence_number].
  destruct (smallest_least rest e0) as [Hin Hmin].
  set (m := smallest e0 rest) in *.
  assert (Hnot : forall x, In x (e0 :: rest) ->
            (time m <= time x)%Q /\
            ((time m == time x)%Q -> (sequence_number m <= sequence_number x)%nat)).
  { intros x Hx. apply not_before. apply Hmin. exact Hx. }
  split; [exact Hin |]. split; [| split; [reflexivity | split]].
  - intros x Hx Hne. destruct (Hnot x Hx) as [Hle Hseq].
    destruct (Qlt_le_dec (time m) (time x)) as [Hlt | Hge]; [left; exact Hlt |].
    assert (He : (time m == time x)%Q) by lra.
    right. split; [exact He |]. specialize (Hseq He).
    assert (sequence_number x <> sequence_number m).
    { intros Hs. apply Hne. eapply same_number_same_entry; eauto. }
    lia.
  - destruct (Hdue m Hin) as [Hclock _]. exact Hclock.
  - split; cbn [clock entries next_sequence_number].
    + intros x Hx.
      change (In x (remove_entry (sequence_number m) (e0 :: rest))) in Hx.
      apply remove_entry_incl in Hx.
      destruct (Hdue x Hx) as [_ Hnum]. destruct (Hnot x Hx) as [Hle _].
      split; assumption.
    + change (NoDup (map sequence_number
                       (remove_entry (sequence_number m) (e0 :: rest)))).
      apply remove_entry_nodup. exact Hnodup.
Qed.

Lemma invariant_call q q' :
  queue_invariant q -> call q q' -> queue_invariant q' /\ (clock q <= clock q')%Q.
Proof.
  intros Hinv Hcall. destruct Hcall as [q delay cb q' Hs | q].
  - destruct (invariant_schedule q delay cb q' Hinv Hs) as [Hinv' ->].
    split; [exact Hinv' | lra].
  - destruct (proceed q) as [q' [e |]] eqn:Hp; simpl.
    + destruct (proceed_least q q' e Hinv Hp) as (_ & _ & _ & Hle & Hinv').
      split; assumption.
    + unfold proceed in Hp. destruct (entries q); [| discriminate].
      inversion Hp; subst. split; [exact Hinv | lra].
Qed.

(** Along any sequence of calls the invariant holds and the clock does
    not decrease. *)
Lemma invariant_calls q q' :
  queue_invariant q -> calls q q' -> queue_invariant q' /\ (clock q <= clock q')%Q.
Proof.
  intros Hinv Hcalls. induction Hcalls as [| q' q'' _ [IHinv IHle] Hcall].
  - split; [exact Hinv | lra].
  - destruct (invariant_call q' q'' IHinv Hcall) as [Hinv'' Hle].
    split; [exact Hinv'' | lra].
Qed.

End EventQueueOrder.

(** C2.  From any queue state that a sequence of [schedule] and [proceed]
    calls leads to, [proceed] on a non-empty queue dispatches a pending entry
    that comes before every other pending entry in [(time, sequence_number)]
    order, equal times being decided by the earlier insertion; the clock
    afterwards is the dispatched entry's time, it is not below the clock
    before, and no later sequence of calls takes it below again.  Scheduling
    A at time 5, B at time 5 and C at time 3 on a new queue and running the
    event loop dispatches C at clock 3, A at clock 5 and B at clock 5. *)
Theorem proceed_dispatches_smallest_pair :
  (forall (Callback : Type) (q : Analytical.EventQueue Callback),
     Analytical.calls Analytical.new_queue q ->
     Analytical.empty q = false ->
     exists q' e,
       Analytical.proceed q = (q', Some e) /\
       In e (Analytical.entries q) /\
       (forall x, In x (Analytical.entries q) -> x <> e -> Analytical.before e x) /\
       Analytical.clock q' = Analytical.time e /\
       (Analytical.clock q <= Analytical.clock q')%Q /\
       (forall q'', Analytical.calls q' q'' ->
          (Analytical.clock q' <= Analytical.clock q'')%Q)) /\
  (exists q,
     queue_A5_B5_C3 = Some q /\
     forall fuel,
       Analytical.run_events inert (3 + fuel) q =
       ([(3%Q, "C"%string); (5%Q, "A"%string); (5%Q, "B"%string)],
        {| Analytical.clock := 5;
           Analytical.next_sequence_number := 3;
           Analytical.entries := [] |})).
Proof.
  split.
  - intros Callback q Hcalls Hempty.
    destruct (invariant_calls _ _ invariant_new Hcalls) as [Hinv _].
    destruct (Analytical.proceed q) as [q' [e |]] eqn:Hp.
    + exists q', e. split; [reflexivity |].
      destruct (proceed_least q q' e Hinv Hp) as (Hin & Hmin & Hclock & Hle & Hinv').
      repeat (split; [assumption |]).
      intros q'' Hlater. apply (invariant_calls q' q'' Hinv' Hlater).
    + exfalso. unfold Analytical.proceed in Hp. unfold Analytical.empty in Hempty.
      destruct (Analytical.entries q); discriminate.
  - eexists. split; [vm_compute; reflexivity |].
    intros fuel. destruct fuel; vm_compute; reflexivity.
Qed.

Lemma proceed_dispatches_smallest_pair_witness :
  exists q' e,
    Analytical.proceed queue_after_A_B_C = (q', Some e) /\
    In e (Analytical.entries queue_after_A_B_C) /\
    (forall x, In x (Analytical.entries queue_after_A_B_C) -> x <> e ->
       Analytical.before e x) /\
    Analytical.clock q' = Analytical.time e /\
    (Analytical.clock queue_after_A_B_C <= Analytical.clock q')%Q /\
    (forall q'', Analytical.calls q' q'' ->
       (Analytical.clock q' <= Analytical.clock q'')%Q).
Proof.
  apply (proj1 proceed_dispatches_smallest_pair string queue_after_A_B_C).
  - eapply Analytical.calls_more; [eapply Analytical.calls_more;
      [eapply Analytical.calls_more; [apply Analytical.calls_none |] |] |].
    + apply Analytical.call_schedule with (delay := 5%Q) (cb := "A"%string). reflexivity.
    + apply Analytical.call_schedule with (delay := 5%Q) (cb := "B"%string). reflexivity.
    + apply Analytical.call_schedule with (delay := 3%Q) (cb := "C"%string). reflexivity.
  - reflexivity.
Defined.

(** * The worked scenario *)

(** C3.  For the configuration of a single-dimension Ring of 4 devices with
    link latency 10, router latency 5, NIC latency 2 and link bandwidth 1,
    [main] creates the ring topology over that dimension; from device 0 to
    device 2 the hop count is 2, the fixed latency is 34, the serialization
    of 1000 bytes is 1000 and the total delay is 1034; the send issued by the
    adapter of device 0 at time 0 schedules one entry, and the event loop
    invokes the completion callback exactly once, at clock 1034, leaving the
    queue empty. *)
Theorem ring_worked_scenario :
  topology (event_loop_state default_command_line ring_of_four) =
    Some (FastRing [ring_dimension]) /\
  Analytical.hop_count Analytical.RingTopology ring_dimension 0 2 = Some 2 /\
  Analytical.hop_count Analytical.RingTopology ring_dimension 0 1 = Some 1 /\
  Analytical.hop_count Analytical.RingTopology ring_dimension 0 3 = Some 1 /\
  (Analytical.fixed_latency ring_dimension 2 == 34)%Q /\
  (Analytical.serialization ring_dimension 1000 == 1000)%Q /\
  (Analytical.total_delay ring_dimension 2 1000 == 1034)%Q /\
  Analytical.send (Analytical.composite_of (FastRing [ring_dimension])) 0 2 1000 =
    Some 1034%Q /\
  forall (Callback : Type) (completion : Callback),
    Analytical.now (@Analytical.new_queue Callback) = 0%Q /\
    exists q,
      Analytical.adapter_send {| rank := 0 |}
        (Analytical.composite_of (FastRing [ring_dimension]))
        0 2 1000 completion Analytical.new_queue = Some q /\
      length (Analytical.entries q) = 1%nat /\
      forall fuel,
        Analytical.run_events inert (S fuel) q =
        ([(1034%Q, completion)],
         {| Analytical.clock := 1034;
            Analytical.next_sequence_number := 1;
            Analytical.entries := [] |}).
Proof.
  do 8 (split; [vm_compute; reflexivity |]).
  intros Callback completion. split; [reflexivity |].
  eexists. split; [vm_compute; reflexivity |]. split; [reflexivity |].
  intros fuel. destruct fuel; vm_compute; reflexivity.
Qed.

(** * Further properties of the driver *)

Lemma set_topology_configs_continues json st st' :
  set_topology_configs json st = Continue st' ->
  build_topology_configs json = Some (topology_configs st') /\
  total_npus st' = total_npus st /\
  nodes_count_for_system st' = nodes_count_for_system st /\
  topology st' = topology st /\
  analytical_networks st' = analytical_networks st /\
  memories st' = memories st /\
  systems st' = systems st /\
  linked_topology st' = linked_topology st.
Proof.
  unfold set_topology_configs.
  destruct (build_topology_configs json) as [tcs |]; [| discriminate].
  intros H. inversion H; subst; clear H. simpl. repeat split; reflexivity.
Qed.

(** The four ways the topology selection lets control go on. *)
Lemma instantiate_topology_result json st st' :
  instantiate_topology json st = Continue st' ->
  (topology_name json = "Switch"%string /\ dimensions_count json = 1 /\
   use_fast_version json = true /\
   st' = with_nodes_count 2 (total_npus st)
           (with_topology (FastSwitch (topology_configs st)) st)) \/
  (topology_name json = "AllToAll"%string /\ dimensions_count json = 1 /\ st' = st) \/
  (topology_name json = "Torus2D"%string /\ dimensions_count json = 2 /\
   use_fast_version json = true /\
   exists u0 u1,
     Cxx.vector_at (units_counts json) 0 = Some u0 /\
     Cxx.vector_at (units_counts json) 1 = Some u1 /\
     st' = with_nodes_count 2 u0
             (with_nodes_count 1 u1
                (with_topology (FastTorus2D (topology_configs st)) st))) \/
  (topology_name json = "Ring"%string /\ dimensions_count json = 1 /\
   use_fast_version json = true /\
   st' = with_nodes_count 2 (total_npus st)
           (with_topology (FastRing (topology_configs st)) st)).
Proof.
  unfold instantiate_topology, make_topology, cxx_assert.
  destruct (String.eqb_spec (topology_name json) "Switch") as [Hn | _].
  { destruct (Z.eqb_spec (dimensions_count json) 1) as [Hd | _]; simpl; [| discriminate].
    destruct (use_fast_version json); simpl; [| discriminate].
    intros H. inversion H. left. repeat split; assumption. }
  destruct (String.eqb_spec (topology_name json) "AllToAll") as [Hn | _].
  { destruct (Z.eqb_spec (dimensions_count json) 1) as [Hd | _]; simpl; [| discriminate].
    intros H. inversion H; subst. right. left. repeat split; assumption. }
  destruct (String.eqb_spec (topology_name json) "Torus2D") as [Hn | _].
  { destruct (Z.eqb_spec (dimensions_count json) 2) as [Hd | _]; simpl; [| discriminate].
    destruct (use_fast_version json); simpl; [| discriminate].
    destruct (Cxx.vector_at (units_counts json) 1) as [u1 |]; [| discriminate].
    destruct (Cxx.vector_at (units_counts json) 0) as [u0 |]; [| discriminate].
    intros H. inversion H. right. right. left.
    repeat split; try assumption. exists u0, u1. repeat split. }
  destruct (String.eqb_spec (topology_name json) "Ring") as [Hn | _].
  { destruct (Z.eqb_spec (dimensions_count json) 1) as [Hd | _]; simpl; [| discriminate].
    destruct (use_fast_version json); simpl; [| discriminate].
    intros H. inversion H. right. right. right. repeat split; assumption. }
  discriminate.
Qed.

(** How a run that reaches the event loop went through [main]. *)
Lemma main_continue_shape cmd json st :
  main cmd json = Continue st ->
  exists st1 st2,
    set_topology_configs json (initial_state json) = Continue st1 /\
    instantiate_topology json st1 = Continue st2 /\
    st = link_topology (instantiate_layers cmd st2).
Proof.
  intros Hmain.
  destruct (main_cases cmd json) as [[_ Heq] | [_ Heq]]; rewrite Heq in Hmain;
    [discriminate |].
  revert Hmain.
  destruct (set_topology_configs json (initial_state json)) as [st1 | | | |] eqn:H1;
    simpl; try discriminate.
  destruct (instantiate_topology json st1) as [st2 | | | |] eqn:H2; simpl; try discriminate.
  intros H. inversion H. exists st1, st2.
  split; [reflexivity |]. split; [exact H2 | reflexivity].
Qed.

(** With every read of lines 210-221 inside its array, the topology
    selection reads inside [units_counts] too. *)
Lemma instantiate_topology_defined json st :
  arrays_cover json (dimensions_count json) ->
  instantiate_topology json st <> UndefinedBehavior.
Proof.
  intros (Hunits & _). unfold instantiate_topology, make_topology, cxx_assert.
  destruct (topology_name json =? "Switch")%string.
  { destruct (dimensions_count json =? 1); simpl; [| discriminate].
    destruct (use_fast_version json); simpl; discriminate. }
  destruct (topology_name json =? "AllToAll")%string.
  { destruct (dimensions_count json =? 1); simpl; discriminate. }
  destruct (topology_name json =? "Torus2D")%string.
  { destruct (Z.eqb_spec (dimensions_count json) 2) as [Hd | _]; simpl; [| discriminate].
    destruct (use_fast_version json); simpl; [| discriminate].
    destruct (vector_at_inside (units_counts json) 1) as [u1 ->]; [lia |].
    destruct (vector_at_inside (units_counts json) 0) as [u0 ->]; [lia |].
    discriminate. }
  destruct (topology_name json =? "Ring")%string.
  { destruct (dimensions_count json =? 1); simpl; [| discriminate].
    destruct (use_fast_version json); simpl; discriminate. }
  discriminate.
Qed.

(** The state the topology selection starts in has no layers. *)
Lemma configured_state_no_layers json st1 :
  set_topology_configs json (initial_state json) = Continue st1 ->
  no_layers st1 /\ topology st1 = None /\
  total_npus st1 = compute_npus_count (units_counts json) /\
  nodes_count_for_system st1 = init_nodes_count_for_system.
Proof.
  intros H. apply set_topology_configs_continues in H.
  destruct H as (_ & H1 & H2 & H3 & H4 & H5 & H6 & H7).
  unfold no_layers. rewrite H1, H2, H3, H4, H5, H6, H7. simpl.
  repeat split; reflexivity.
Qed.

(** X1.  A run reaches the event loop only for a recognised topology name
    with the dimension count its assertion asks for, with every array read
    inside its bounds, and, unless the name is "AllToAll", with the fast
    version requested. *)
Theorem event_loop_only_for_accepted_requests cmd json st :
  main cmd json = Continue st ->
  arrays_cover json (dimensions_count json) /\
  exists d text,
    expected_dimensions (topology_name json) = Some (d, text) /\
    dimensions_count json = d /\
    (topology_name json <> "AllToAll"%string -> use_fast_version json = true).
Proof.
  intros Hmain.
  destruct (main_continue_shape cmd json st Hmain) as (st1 & st2 & H1 & H2 & _).
  apply set_topology_configs_continues in H1. destruct H1 as (Hrun & _).
  split; [eapply build_topology_configs_covered; exact Hrun |].
  apply instantiate_topology_result in H2.
  destruct H2 as [(Hn & Hd & Hf & _) | [(Hn & Hd & _) | [(Hn & Hd & Hf & _) | (Hn & Hd & Hf & _)]]];
    rewrite Hn.
  - exists 1, "1"%string.
    split; [reflexivity | split; [exact Hd | intros _; exact Hf]].
  - exists 1, "1"%string.
    split; [reflexivity | split; [exact Hd | intros Hne; now elim Hne]].
  - exists 2, "2"%string.
    split; [reflexivity | split; [exact Hd | intros _; exact Hf]].
  - exists 1, "1"%string.
    split; [reflexivity | split; [exact Hd | intros _; exact Hf]].
Qed.

Lemma event_loop_only_for_accepted_requests_witness :
  arrays_cover torus_request (dimensions_count torus_request) /\
  exists d text,
    expected_dimensions (topology_name torus_request) = Some (d, text) /\
    dimensions_count torus_request = d /\
    (topology_name torus_request <> "AllToAll"%string ->
     use_fast_version torus_request = true).
Proof.
  apply (event_loop_only_for_accepted_requests default_command_line torus_request
           (event_loop_state default_command_line torus_request)).
  reflexivity.
Defined.

(** X2.  [main] reads a vector out of range exactly when the arrays of
    lines 199-202 could be declared (the device count is not negative) and
    some per-dimension array has fewer than [dimensions-count] entries. *)
Theorem out_of_range_read_iff_short_array cmd json :
  main cmd json = UndefinedBehavior <->
  0 <= compute_npus_count (units_counts json) /\
  ~ arrays_cover json (dimensions_count json).
Proof.
  destruct (main_cases cmd json) as [[Hneg Heq] | [Hpos Heq]]; rewrite Heq.
  { split; [discriminate | intros [Hpos _]; lia]. }
  split.
  - intros Hmain. split; [exact Hpos |]. intros Hcover.
    destruct (set_topology_configs_inside json Hcover) as (st & Hst & _).
    rewrite Hst in Hmain. simpl in Hmain.
    pose proof (instantiate_topology_defined json st Hcover) as Hdef.
    destruct (instantiate_topology json st); simpl in Hmain;
      try discriminate; now apply Hdef.
  - intros [_ Hshort]. unfold set_topology_configs.
    destruct (build_topology_configs json) as [tcs |] eqn:Hrun; [| reflexivity].
    exfalso. apply Hshort. eapply build_topology_configs_covered. exact Hrun.
Qed.

(** X3.  From the instantiation part on (line 180), an [exit] of [main]
    has status -1 and happens before any adapter, memory or system object
    exists and before a topology is created; it prints either
    "[Main] Topology not defined: " followed by the name, for an unrecognised
    name, or "Detailed version not implemented yet", for a request of the
    detailed version of Switch, Torus2D or Ring with the right dimension
    count. *)
Theorem exit_is_status_minus_one cmd json status printed st :
  main cmd json = Exit status printed st ->
  status = -1 /\ no_layers st /\ topology st = None /\
  ((topology_name json <> "Switch"%string /\
    topology_name json <> "AllToAll"%string /\
    topology_name json <> "Torus2D"%string /\
    topology_name json <> "Ring"%string /\
    printed = ("[Main] Topology not defined: " ++ topology_name json)%string) \/
   (((topology_name json = "Switch"%string /\ dimensions_count json = 1) \/
     (topology_name json = "Torus2D"%string /\ dimensions_count json = 2) \/
     (topology_name json = "Ring"%string /\ dimensions_count json = 1)) /\
    use_fast_version json = false /\
    printed = "Detailed version not implemented yet"%string)).
Proof.
  intros Hmain.
  destruct (main_cases cmd json) as [[_ Heq] | [_ Heq]]; rewrite Heq in Hmain;
    [discriminate |].
  revert Hmain.
  destruct (set_topology_configs json (initial_state json)) as [st1 | | | |] eqn:H1;
    simpl; try discriminate.
  - destruct (instantiate_topology json st1) as [st2 | s p st2 | | |] eqn:H2; simpl;
      try discriminate.
    intros H. inversion H; subst; clear H.
    destruct (configured_state_no_layers json st1 H1) as (Hno & Htopo & _).
    revert H2. unfold instantiate_topology, make_topology, cxx_assert.
    destruct (String.eqb_spec (topology_name json) "Switch") as [Hn | N1].
    { destruct (Z.eqb_spec (dimensions_count json) 1) as [Hd | _]; simpl; [| discriminate].
      destruct (use_fast_version json); simpl; [discriminate |].
      intros H. inversion H; subst.
      split; [reflexivity |]. split; [exact Hno |]. split; [exact Htopo |].
      right. split; [left; split; assumption |]. split; reflexivity. }
    destruct (String.eqb_spec (topology_name json) "AllToAll") as [Hn | N2].
    { destruct (dimensions_count json =? 1); simpl; discriminate. }
    destruct (String.eqb_spec (topology_name json) "Torus2D") as [Hn | N3].
    { destruct (Z.eqb_spec (dimensions_count json) 2) as [Hd | _]; simpl; [| discriminate].
      destruct (use_fast_version json); simpl.
      - destruct (Cxx.vector_at (units_counts json) 1); [| discriminate].
        destruct (Cxx.vector_at (units_counts json) 0); discriminate.
      - intros H. inversion H; subst.
        split; [reflexivity |]. split; [exact Hno |]. split; [exact Htopo |].
        right. split; [right; left; split; assumption |]. split; reflexivity. }
    destruct (String.eqb_spec (topology_name json) "Ring") as [Hn | N4].
    { destruct (Z.eqb_spec (dimensions_count json) 1) as [Hd | _]; simpl; [| discriminate].
      destruct (use_fast_version json); simpl; [discriminate |].
      intros H. inversion H; subst.
      split; [reflexivity |]. split; [exact Hno |]. split; [exact Htopo |].
      right. split; [right; right; split; assumption |]. split; reflexivity. }
    intros H. inversion H; subst.
    split; [reflexivity |]. split; [exact Hno |]. split; [exact Htopo |].
    left. repeat split; assumption.
  - unfold set_topology_configs in H1.
    destruct (build_topology_configs json); discriminate.
Qed.

Lemma exit_is_status_minus_one_witness :
  let st := {| total_npus := 4;
               nodes_count_for_system := init_nodes_count_for_system;
               topology_configs := [ring_dimension];
               topology := None;
               analytical_networks := [];
               memories := [];
               systems := [];
               linked_topology := None |} in
  -1 = -1 /\ no_layers st /\ topology st = None /\
  ((topology_name mesh_request <> "Switch"%string /\
    topology_name mesh_request <> "AllToAll"%string /\
    topology_name mesh_request <> "Torus2D"%string /\
    topology_name mesh_request <> "Ring"%string /\
    "[Main] Topology not defined: Mesh"%string =
      ("[Main] Topology not defined: " ++ topology_name mesh_request)%string) \/
   (((topology_name mesh_request = "Switch"%string /\ dimensions_count mesh_request = 1) \/
     (topology_name mesh_request = "Torus2D"%string /\ dimensions_count mesh_request = 2) \/
     (topology_name mesh_request = "Ring"%string /\ dimensions_count mesh_request = 1)) /\
    use_fast_version mesh_request = false /\
    "[Main] Topology not defined: Mesh"%string =
      "Detailed version not implemented yet"%string)).
Proof.
  apply (exit_is_status_minus_one default_command_line mesh_request).
  reflexivity.
Defined.

(** X4.  An assertion of [main] fails only for a recognised topology name
    whose dimension count is not the one asked for (1 for Switch, AllToAll
    and Ring, 2 for Torus2D); the message is "[main] <name> is the given
    topology but dimension != <count>" with that name and that count, and no
    adapter, memory or system object exists yet. *)
Theorem assertion_failure_is_dimension_mismatch cmd json message st :
  main cmd json = AssertionFailure message st ->
  no_layers st /\
  ((topology_name json = "Switch"%string /\ dimensions_count json <> 1 /\
    message = "[main] Switch is the given topology but dimension != 1"%string) \/
   (topology_name json = "AllToAll"%string /\ dimensions_count json <> 1 /\
    message = "[main] AllToAll is the given topology but dimension != 1"%string) \/
   (topology_name json = "Torus2D"%string /\ dimensions_count json <> 2 /\
    message = "[main] Torus2D is the given topology but dimension != 2"%string) \/
   (topology_name json = "Ring"%string /\ dimensions_count json <> 1 /\
    message = "[main] Ring is the given topology but dimension != 1"%string)).
Proof.
  intros Hmain.
  destruct (main_cases cmd json) as [[_ Heq] | [_ Heq]]; rewrite Heq in Hmain;
    [discriminate |].
  revert Hmain.
  destruct (set_topology_configs json (initial_state json)) as [st1 | | | |] eqn:H1;
    simpl; try discriminate.
  - destruct (instantiate_topology json st1) as [st2 | | m st2 | |] eqn:H2; simpl;
      try discriminate.
    intros H. inversion H; subst; clear H.
    destruct (configured_state_no_layers json st1 H1) as (Hno & _).
    revert H2. unfold instantiate_topology, make_topology, cxx_assert.
    destruct (String.eqb_spec (topology_name json) "Switch") as [Hn | _].
    { destruct (Z.eqb_spec (dimensions_count json) 1) as [_ | Hd]; simpl.
      - destruct (use_fast_version json); simpl; discriminate.
      - intros H. inversion H; subst. split; [exact Hno |].
        left. repeat split; assumption. }
    destruct (String.eqb_spec (topology_name json) "AllToAll") as [Hn | _].
    { destruct (Z.eqb_spec (dimensions_count json) 1) as [_ | Hd]; simpl; [discriminate |].
      intros H. inversion H; subst. split; [exact Hno |].
      right. left. repeat split; assumption. }
    destruct (String.eqb_spec (topology_name json) "Torus2D") as [Hn | _].
    { destruct (Z.eqb_spec (dimensions_count json) 2) as [_ | Hd]; simpl.
      - destruct (use_fast_version json); simpl; [| discriminate].
        destruct (Cxx.vector_at (units_counts json) 1); [| discriminate].
        destruct (Cxx.vector_at (units_counts json) 0); discriminate.
      - intros H. inversion H; subst. split; [exact Hno |].
        right. right. left. repeat split; assumption. }
    destruct (String.eqb_spec (topology_name json) "Ring") as [Hn | _].
    { destruct (Z.eqb_spec (dimensions_count json) 1) as [_ | Hd]; simpl.
      - destruct (use_fast_version json); simpl; discriminate.
      - intros H. inversion H; subst. split; [exact Hno |].
        right. right. right. repeat split; assumption. }
    discriminate.
  - unfold set_topology_configs in H1.
    destruct (build_topology_configs json); discriminate.
Qed.

Lemma assertion_failure_is_dimension_mismatch_witness :
  let st := {| total_npus := 4;
               nodes_count_for_system := init_nodes_count_for_system;
               topology_configs :=
                 [{| npus_count := 2; link_latency := 10; link_bandwidth := 1;
                     nic_latency := 2; router_latency := 5; hbm_latency := 1;
                     hbm_bandwidth := 1; hbm_scale := 1 |};
                  {| npus_count := 2; link_latency := 10; link_bandwidth := 1;
                     nic_latency := 2; router_latency := 5; hbm_latency := 1;
                     hbm_bandwidth := 1; hbm_scale := 1 |}];
               topology := None;
               analytical_networks := [];
               memories := [];
               systems := [];
               linked_topology := None |} in
  let message := "[main] Switch is the given topology but dimension != 1"%string in
  no_layers st /\
  ((topology_name two_dimensional_switch_request = "Switch"%string /\
    dimensions_count two_dimensional_switch_request <> 1 /\
    message = "[main] Switch is the given topology but dimension != 1"%string) \/
   (topology_name two_dimensional_switch_request = "AllToAll"%string /\
    dimensions_count two_dimensional_switch_request <> 1 /\
    message = "[main] AllToAll is the given topology but dimension != 1"%string) \/
   (topology_name two_dimensional_switch_request = "Torus2D"%string /\
    dimensions_count two_dimensional_switch_request <> 2 /\
    message = "[main] Torus2D is the given topology but dimension != 2"%string) \/
   (topology_name two_dimensional_switch_request = "Ring"%string /\
    dimensions_count two_dimensional_switch_request <> 1 /\
    message = "[main] Ring is the given topology but dimension != 1"%string)).
Proof.
  apply (assertion_failure_is_dimension_mismatch default_command_line
           two_dimensional_switch_request).
  reflexivity.
Defined.

(** The instantiation loop appends the objects of the indices [i],
    [i + 1], ... in this order. *)
Lemma instantiate_loop_objects cmd count : forall i st,
  analytical_networks (instantiate_loop cmd count i st) =
    analytical_networks st ++
    map (fun k => device_network (i + Z.of_nat k)) (seq 0 count) /\
  memories (instantiate_loop cmd count i st) =
    memories st ++ map (fun k => device_memory (i + Z.of_nat k)) (seq 0 count) /\
  systems (instantiate_loop cmd count i st) =
    systems st ++
    map (fun k => device_system cmd (nodes_count_for_system st) (i + Z.of_nat k))
      (seq 0 count).
Proof.
  induction count as [| count IH]; intros i st.
  - simpl. rewrite !app_nil_r. repeat split.
  - cbn [instantiate_loop].
    destruct (IH (i + 1) (instantiate_device cmd i st)) as (Hn & Hm & Hs).
    rewrite Hn, Hm, Hs. cbn [seq map analytical_networks memories systems
                               nodes_count_for_system instantiate_device].
    rewrite <- !seq_shift, !map_map, <- !app_assoc. cbn [app].
    replace (i + Z.of_nat 0) with i by lia.
    repeat split; do 2 f_equal; apply map_ext; intros k; f_equal; lia.
Qed.

Lemma nth_error_map_seq {A : Type} (f : nat -> A) n k x :
  nth_error (map f (seq 0 n)) k = Some x -> (k < n)%nat /\ x = f k.
Proof.
  rewrite nth_error_map, nth_error_seq.
  destruct (Nat.ltb_spec k n) as [Hlt | _]; simpl; [| discriminate].
  intros Heq. inversion Heq. split; [exact Hlt | reflexivity].
Qed.

(** X5.  In a run that reaches the event loop, the k-th system object has
    id k and is given the k-th adapter and the k-th memory; that memory is
    built on the same adapter with the arguments 500, 270 and 12.5, and the
    system receives the command line's pass count and, five times, its queue
    count. *)
Theorem system_k_is_wired_to_adapter_and_memory_k cmd json st k s :
  main cmd json = Continue st ->
  nth_error (systems st) k = Some s ->
  sys_id s = Z.of_nat k /\
  rank (sys_network s) = Z.of_nat k /\
  nth_error (analytical_networks st) k = Some (sys_network s) /\
  nth_error (memories st) k = Some (sys_memory s) /\
  memory_network (sys_memory s) = sys_network s /\
  memory_arguments (sys_memory s) = (500, 270, 25 # 2) /\
  sys_num_passes s = num_passes cmd /\
  sys_queues_per_dimension s = repeat (num_queues_per_dim cmd) 5 /\
  sys_command_line s = cmd.
Proof.
  intros Hmain Hk.
  destruct (main_continue_shape cmd json st Hmain) as (st1 & st2 & H1 & H2 & ->).
  destruct (configured_state_no_layers json st1 H1) as ((N1 & M1 & S1 & _) & _).
  apply instantiate_topology_continues in H2.
  destruct H2 as (_ & _ & N2 & M2 & S2 & _).
  unfold link_topology, instantiate_layers in *.
  cbn [systems analytical_networks memories] in *.
  destruct (instantiate_loop_objects cmd (Z.to_nat (total_npus st2)) 0 st2)
    as (Hn & Hm & Hs).
  rewrite N2, N1 in Hn. rewrite M2, M1 in Hm. rewrite S2, S1 in Hs.
  cbn [app] in Hn, Hm, Hs. rewrite Hn, Hm. rewrite Hs in Hk.
  apply nth_error_map_seq in Hk. destruct Hk as [Hlt ->].
  rewrite !nth_error_map, !nth_error_seq.
  destruct (Nat.ltb_spec k (Z.to_nat (total_npus st2))) as [_ | Hge]; [| lia].
  simpl. repeat split.
Qed.

Lemma system_k_is_wired_to_adapter_and_memory_k_witness :
  let s := device_system default_command_line
             [Cxx.Int 1; Cxx.Int 1; Cxx.Int 4; Cxx.Int 1; Cxx.Int 0] 3 in
  sys_id s = Z.of_nat 3 /\
  rank (sys_network s) = Z.of_nat 3 /\
  nth_error (analytical_networks (event_loop_state default_command_line ring_of_four)) 3 =
    Some (sys_network s) /\
  nth_error (memories (event_loop_state default_command_line ring_of_four)) 3 =
    Some (sys_memory s) /\
  memory_network (sys_memory s) = sys_network s /\
  memory_arguments (sys_memory s) = (500, 270, 25 # 2) /\
  sys_num_passes s = num_passes default_command_line /\
  sys_queues_per_dimension s = repeat (num_queues_per_dim default_command_line) 5 /\
  sys_command_line s = default_command_line.
Proof.
  apply (system_k_is_wired_to_adapter_and_memory_k default_command_line ring_of_four
           (event_loop_state default_command_line ring_of_four) 3).
  - reflexivity.
  - reflexivity.
Defined.

(** X6.  In a run that reaches the event loop, as many adapters as memories
    as system objects exist: the device count of lines 187-190 when it is
    positive, none otherwise. *)
Theorem layers_have_npus_count_objects cmd json st :
  main cmd json = Continue st ->
  total_npus st = compute_npus_count (units_counts json) /\
  Z.of_nat (length (analytical_networks st)) = Z.max 0 (total_npus st) /\
  Z.of_nat (length (memories st)) = Z.max 0 (total_npus st) /\
  Z.of_nat (length (systems st)) = Z.max 0 (total_npus st).
Proof.
  intros Hmain.
  destruct (main_continues cmd json st Hmain) as (_ & Hn & Hm & Hs & _).
  destruct (main_continue_shape cmd json st Hmain) as (st1 & st2 & H1 & H2 & ->).
  destruct (configured_state_no_layers json st1 H1) as (_ & _ & Hnpus & _).
  apply instantiate_topology_continues in H2. destruct H2 as (_ & T2 & _).
  destruct (instantiate_loop_adds cmd (Z.to_nat (total_npus st2)) 0 st2)
    as (_ & _ & _ & _ & _ & L6 & _).
  assert (Htotal : total_npus (link_topology (instantiate_layers cmd st2)) =
                   compute_npus_count (units_counts json)).
  { unfold link_topology, instantiate_layers. cbn [total_npus].
    rewrite L6, T2. exact Hnpus. }
  rewrite Htotal. split; [reflexivity |]. rewrite Hn, Hm, Hs. repeat split; lia.
Qed.

Lemma layers_have_npus_count_objects_witness :
  let st := event_loop_state default_command_line torus_request in
  total_npus st = compute_npus_count (units_counts torus_request) /\
  Z.of_nat (length (analytical_networks st)) = Z.max 0 (total_npus st) /\
  Z.of_nat (length (memories st)) = Z.max 0 (total_npus st) /\
  Z.of_nat (length (systems st)) = Z.max 0 (total_npus st).
Proof.
  apply (layers_have_npus_count_objects default_command_line torus_request).
  reflexivity.
Defined.

Lemma int_mul_zero_left u : Cxx.int_mul 0 u = 0.
Proof. reflexivity. Qed.

Lemma fold_int_mul_from_zero units : fold_left Cxx.int_mul units 0 = 0.
Proof.
  induction units as [| u units IH]; simpl; [reflexivity |].
  rewrite int_mul_zero_left. exact IH.
Qed.

Lemma compute_npus_count_zero_entry units :
  In 0 units -> compute_npus_count units = 0.
Proof.
  unfold compute_npus_count. generalize 1.
  induction units as [| u units IH]; intros a Hin; simpl; [destruct Hin |].
  destruct Hin as [-> | Hin].
  - unfold Cxx.int_mul. rewrite Z.mul_0_r.
    change (Cxx.wrap_int 0) with 0. apply fold_int_mul_from_zero.
  - apply IH. exact Hin.
Qed.

(** X7.  A zero entry anywhere in [units-count] is not an error: a run that
    reaches the event loop then has no adapter, no memory and no system
    object at all. *)
Theorem zero_units_entry_creates_no_device cmd json st :
  In 0 (units_counts json) ->
  main cmd json = Continue st ->
  analytical_networks st = [] /\ memories st = [] /\ systems st = [].
Proof.
  intros Hzero Hmain.
  destruct (main_continues cmd json st Hmain) as (_ & Hn & Hm & Hs & _).
  rewrite (compute_npus_count_zero_entry _ Hzero) in Hn, Hm, Hs.
  simpl in Hn, Hm, Hs.
  repeat split; apply length_zero_iff_nil; assumption.
Qed.

Lemma zero_units_entry_creates_no_device_witness :
  let st := event_loop_state default_command_line empty_ring_request in
  analytical_networks st = [] /\ memories st = [] /\ systems st = [].
Proof.
  apply (zero_units_entry_creates_no_device default_command_line empty_ring_request).
  - left. reflexivity.
  - reflexivity.
Defined.

(** The fields the instantiation loop and the linking leave alone. *)
Lemma layers_keep_topology cmd st2 :
  let st := link_topology (instantiate_layers cmd st2) in
  topology st = topology st2 /\
  topology_configs st = topology_configs st2 /\
  nodes_count_for_system st = nodes_count_for_system st2 /\
  linked_topology st = Some (topology st2).
Proof.
  destruct (instantiate_loop_adds cmd (Z.to_nat (total_npus st2)) 0 st2)
    as (_ & _ & _ & L4 & L5 & _ & L7 & _).
  unfold link_topology, instantiate_layers. simpl.
  rewrite L4, L5, L7. repeat split.
Qed.

(** X8.  In a run that reaches the event loop, the topology object is the
    fast variant of the requested name, built over exactly the dimension
    list; it is null precisely for the name "AllToAll"; and the topology
    handed to the adapters by [set_topology] is this same object. *)
Theorem linked_topology_is_requested_variant cmd json st :
  main cmd json = Continue st ->
  linked_topology st = Some (topology st) /\
  build_topology_configs json = Some (topology_configs st) /\
  (topology_name json = "Switch"%string ->
   topology st = Some (FastSwitch (topology_configs st))) /\
  (topology_name json = "Torus2D"%string ->
   topology st = Some (FastTorus2D (topology_configs st))) /\
  (topology_name json = "Ring"%string ->
   topology st = Some (FastRing (topology_configs st))) /\
  (topology st = None <-> topology_name json = "AllToAll"%string).
Proof.
  intros Hmain.
  destruct (main_continues cmd json st Hmain) as (Hrun & _ & _ & _ & Hlink & _).
  split; [exact Hlink |]. split; [exact Hrun |].
  destruct (main_continue_shape cmd json st Hmain) as (st1 & st2 & H1 & H2 & ->).
  destruct (configured_state_no_layers json st1 H1) as (_ & Htopo & _).
  destruct (layers_keep_topology cmd st2) as (K1 & K2 & _).
  rewrite K1, K2.
  apply instantiate_topology_result in H2.
  destruct H2 as [(Hn & _ & _ & ->) | [(Hn & _ & ->) | [(Hn & _ & _ & u0 & u1 & _ & _ & ->)
                                                      | (Hn & _ & _ & ->)]]];
    rewrite Hn; simpl; try rewrite Htopo;
    repeat split; intros; try reflexivity; discriminate.
Qed.

Lemma linked_topology_is_requested_variant_witness :
  let st := event_loop_state default_command_line torus_request in
  linked_topology st = Some (topology st) /\
  build_topology_configs torus_request = Some (topology_configs st) /\
  (topology_name torus_request = "Switch"%string ->
   topology st = Some (FastSwitch (topology_configs st))) /\
  (topology_name torus_request = "Torus2D"%string ->
   topology st = Some (FastTorus2D (topology_configs st))) /\
  (topology_name torus_request = "Ring"%string ->
   topology st = Some (FastRing (topology_configs st))) /\
  (topology st = None <-> topology_name torus_request = "AllToAll"%string).
Proof.
  apply (linked_topology_is_requested_variant default_command_line torus_request).
  reflexivity.
Defined.

Lemma vector_at_head_two (units : list Z) u0 u1 :
  Cxx.vector_at units 0 = Some u0 -> Cxx.vector_at units 1 = Some u1 ->
  exists rest, units = u0 :: u1 :: rest.
Proof.
  destruct units as [| a [| b rest]]; cbn; try discriminate.
  intros Ha Hb. inversion Ha. inversion Hb. now exists rest.
Qed.

(** X9.  The five system-layer dimensions every system object receives:
    (1, 1, device count, 1, 0) for Switch and Ring, (1, second entry of
    [units-count], first entry, 1, 0) for Torus2D, and (1, 1, 1, 1, 0) for
    AllToAll. *)
Theorem system_dimensions_by_topology cmd json st s :
  main cmd json = Continue st ->
  In s (systems st) ->
  (topology_name json = "Switch"%string \/ topology_name json = "Ring"%string ->
   sys_dimensions s =
     [Cxx.Int 1; Cxx.Int 1; Cxx.Int (compute_npus_count (units_counts json));
      Cxx.Int 1; Cxx.Int 0]) /\
  (topology_name json = "Torus2D"%string ->
   exists u0 u1 rest,
     units_counts json = u0 :: u1 :: rest /\
     sys_dimensions s = [Cxx.Int 1; Cxx.Int u1; Cxx.Int u0; Cxx.Int 1; Cxx.Int 0]) /\
  (topology_name json = "AllToAll"%string ->
   sys_dimensions s = [Cxx.Int 1; Cxx.Int 1; Cxx.Int 1; Cxx.Int 1; Cxx.Int 0]).
Proof.
  intros Hmain Hs.
  destruct (main_continue_shape cmd json st Hmain) as (st1 & st2 & H1 & H2 & ->).
  destruct (configured_state_no_layers json st1 H1) as ((_ & _ & S1 & _) & _ & Hnpus & Hnodes).
  pose proof (instantiate_topology_continues json st1 st2 H2) as (_ & _ & _ & _ & S2 & _).
  destruct (instantiate_loop_adds cmd (Z.to_nat (total_npus st2)) 0 st2)
    as (_ & _ & _ & _ & _ & _ & _ & L8).
  unfold link_topology, instantiate_layers in Hs. cbn [systems] in Hs.
  destruct (L8 s Hs) as [Hin | Hdims]; [rewrite S2, S1 in Hin; destruct Hin |].
  rewrite Hdims. clear Hdims L8 Hs.
  apply instantiate_topology_result in H2.
  destruct H2 as [(Hn & _ & _ & ->) | [(Hn & _ & ->) | [(Hn & _ & _ & u0 & u1 & Hu0 & Hu1 & ->)
                                                      | (Hn & _ & _ & ->)]]];
    rewrite Hn; cbn [with_nodes_count with_topology nodes_count_for_system];
    rewrite Hnodes.
  - split; [intros _; rewrite Hnpus; reflexivity |].
    split; intros; discriminate.
  - split; [intros [|]; discriminate |].
    split; [intros; discriminate | intros _; reflexivity].
  - split; [intros [|]; discriminate |].
    split; [| intros; discriminate].
    intros _. destruct (vector_at_head_two _ _ _ Hu0 Hu1) as [rest Hrest].
    exists u0, u1, rest. split; [exact Hrest | reflexivity].
  - split; [intros _; rewrite Hnpus; reflexivity |].
    split; intros; discriminate.
Qed.

Lemma system_dimensions_by_topology_witness :
  Forall (fun s =>
    (topology_name torus_request = "Switch"%string \/
     topology_name torus_request = "Ring"%string ->
     sys_dimensions s =
       [Cxx.Int 1; Cxx.Int 1; Cxx.Int (compute_npus_count (units_counts torus_request));
        Cxx.Int 1; Cxx.Int 0]) /\
    (topology_name torus_request = "Torus2D"%string ->
     exists u0 u1 rest,
       units_counts torus_request = u0 :: u1 :: rest /\
       sys_dimensions s = [Cxx.Int 1; Cxx.Int u1; Cxx.Int u0; Cxx.Int 1; Cxx.Int 0]) /\
    (topology_name torus_request = "AllToAll"%string ->
     sys_dimensions s = [Cxx.Int 1; Cxx.Int 1; Cxx.Int 1; Cxx.Int 1; Cxx.Int 0]))
    (systems (event_loop_state default_command_line torus_request)).
Proof.
  apply Forall_forall. intros s Hs.
  apply (system_dimensions_by_topology default_command_line torus_request
           (event_loop_state default_command_line torus_request) s).
  - reflexivity.
  - exact Hs.
Defined.

Lemma vector_at_leading {A : Type} (v v' : list A) n i :
  firstn n v = firstn n v' -> 0 <= i < Z.of_nat n ->
  Cxx.vector_at v i = Cxx.vector_at v' i.
Proof.
  intros Hfirst Hi. unfold Cxx.vector_at.
  destruct (Z.ltb_spec i 0); [lia |].
  assert (Hlt : (Z.to_nat i <? n)%nat = true) by (apply Nat.ltb_lt; lia).
  pose proof (nth_error_firstn n v (Z.to_nat i)) as Hv.
  pose proof (nth_error_firstn n v' (Z.to_nat i)) as Hv'.
  rewrite Hlt in Hv, Hv'. rewrite <- Hv, <- Hv', Hfirst. reflexivity.
Qed.

Lemma read_dimension_leading json json' i :
  same_leading_entries json json' -> 0 <= i < dimensions_count json ->
  read_dimension json i = read_dimension json' i.
Proof.
  intros (_ & _ & _ & Hu & H1 & H2 & H3 & H4 & H5 & H6 & H7) Hi.
  assert (Hn : 0 <= i < Z.of_nat (Z.to_nat (dimensions_count json))) by lia.
  unfold read_dimension. rewrite Hu.
  rewrite (vector_at_leading _ _ _ i H1 Hn), (vector_at_leading _ _ _ i H2 Hn),
    (vector_at_leading _ _ _ i H3 Hn), (vector_at_leading _ _ _ i H4 Hn),
    (vector_at_leading _ _ _ i H5 Hn), (vector_at_leading _ _ _ i H6 Hn),
    (vector_at_leading _ _ _ i H7 Hn).
  reflexivity.
Qed.

Lemma topology_configs_loop_leading json json' count : forall i acc,
  same_leading_entries json json' -> 0 <= i ->
  i + Z.of_nat count <= Z.max 0 (dimensions_count json) ->
  topology_configs_loop json count i acc = topology_configs_loop json' count i acc.
Proof.
  induction count as [| count IH]; intros i acc Hsame Hi Hle; simpl; [reflexivity |].
  rewrite (read_dimension_leading json json' i Hsame) by lia.
  destruct (read_dimension json' i); [| reflexivity].
  apply IH; [exact Hsame | lia | lia].
Qed.

(** X10.  The entries of the latency, bandwidth and memory arrays beyond
    the first [dimensions-count] never influence the run: two configurations
    with the same name, flag, dimension count and [units-count] that agree on
    the first [dimensions-count] entries of the other seven arrays give the
    same outcome. *)
Theorem surplus_entries_do_not_influence_run cmd json json' :
  same_leading_entries json json' -> main cmd json = main cmd json'.
Proof.
  intros Hsame.
  assert (Hbuild : build_topology_configs json = build_topology_configs json').
  { unfold build_topology_configs.
    pose proof Hsame as (_ & _ & Hd & _). rewrite <- Hd.
    apply topology_configs_loop_leading; [exact Hsame | lia | lia]. }
  destruct Hsame as (Hn & Hf & Hd & Hu & _).
  assert (Hinit : initial_state json = initial_state json').
  { unfold initial_state. rewrite Hu. reflexivity. }
  assert (Htopo : forall st, instantiate_topology json st = instantiate_topology json' st).
  { intros st. unfold instantiate_topology, make_topology. rewrite Hn, Hf, Hd, Hu.
    reflexivity. }
  unfold main, configure, set_topology_configs. rewrite Hbuild, Hinit.
  destruct (declare_arrays (initial_state json')); simpl; try reflexivity.
  destruct (build_topology_configs json'); simpl; [| reflexivity].
  rewrite Htopo. reflexivity.
Qed.

Lemma surplus_entries_do_not_influence_run_witness :
  main default_command_line ring_of_four =
  main default_command_line surplus_hbm_scale_request.
Proof.
  apply (surplus_entries_do_not_influence_run default_command_line
           ring_of_four surplus_hbm_scale_request).
  unfold same_leading_entries. simpl. repeat split.
Defined.

(** * Further properties of the event loop *)

Section EventLoop.

Import Analytical.

Context {Callback : Type}.

(** What running a callback does to the queue. *)
Variable invoke : Callback -> EventQueue Callback -> EventQueue Callback.

(** A callback acts on the queue through its surface only. *)
Hypothesis invoke_calls : forall cb q, calls q (invoke cb q).

Lemma run_events_clock fuel : forall q,
  queue_invariant q ->
  Forall (Qle (clock q)) (map fst (fst (run_events invoke fuel q))) /\
  StronglySorted Qle (map fst (fst (run_events invoke fuel q))) /\
  (clock q <= clock (snd (run_events invoke fuel q)))%Q /\
  queue_invariant (snd (run_events invoke fuel q)).
Proof.
  induction fuel as [| fuel IH]; intros q Hinv; simpl.
  - split; [constructor | split; [constructor | split; [apply Qle_refl | exact Hinv]]].
  - destruct (empty q).
    { simpl. split; [constructor | split; [constructor | split; [apply Qle_refl | exact Hinv]]]. }
    destruct (proceed q) as [q' [e |]] eqn:Hp.
    + destruct (proceed_least q q' e Hinv Hp) as (_ & _ & _ & Hle & Hinv').
      destruct (invariant_calls q' _ Hinv' (invoke_calls (callback e) q')) as [Hinv'' Hle'].
      destruct (IH _ Hinv'') as (Hall & Hsorted & Hfinal & Hinvf).
      destruct (run_events invoke fuel (invoke (callback e) q')) as [fired final].
      simpl in *.
      assert (Hall' : Forall (Qle (clock q')) (map fst fired)).
      { eapply Forall_impl; [| exact Hall]. intros t Ht. simpl in Ht. lra. }
      split; [| split; [| split]].
      * constructor; [exact Hle |].
        eapply Forall_impl; [| exact Hall']. intros t Ht. simpl in Ht. lra.
      * constructor; assumption.
      * lra.
      * exact Hinvf.
    + unfold proceed in Hp. destruct (entries q); [| discriminate].
      inversion Hp; subst. simpl.
      split; [constructor | split; [constructor | split; [apply Qle_refl | exact Hinv]]].
Qed.

(** X11.  Whatever the callbacks schedule, the event loop of lines 339-341
    never takes the clock back: from a queue state reached by [schedule] and
    [proceed] calls, the clocks at which the callbacks run form a
    non-decreasing sequence that starts at or after the current clock and
    ends at or before the final clock. *)
Theorem event_loop_clock_is_monotone fuel q :
  calls new_queue q ->
  Forall (Qle (clock q)) (map fst (fst (run_events invoke fuel q))) /\
  StronglySorted Qle (map fst (fst (run_events invoke fuel q))) /\
  Forall (fun t => (t <= clock (snd (run_events invoke fuel q)))%Q)
    (map fst (fst (run_events invoke fuel q))).
Proof.
  intros Hcalls.
  destruct (invariant_calls _ _ invariant_new Hcalls) as [Hinv _].
  destruct (run_events_clock fuel q Hinv) as (Hall & Hsorted & _ & _).
  split; [exact Hall |]. split; [exact Hsorted |].
  clear Hall Hsorted Hcalls. revert q Hinv.
  induction fuel as [| fuel IH]; intros q Hinv; simpl; [constructor |].
  destruct (empty q); [constructor |].
  destruct (proceed q) as [q' [e |]] eqn:Hp; [| constructor].
  destruct (proceed_least q q' e Hinv Hp) as (_ & _ & _ & _ & Hinv').
  destruct (invariant_calls q' _ Hinv' (invoke_calls (callback e) q')) as [Hinv'' Hle'].
  specialize (IH _ Hinv'').
  destruct (run_events_clock fuel _ Hinv'') as (_ & _ & Hfinal & _).
  destruct (run_events invoke fuel (invoke (callback e) q')) as [fired final].
  simpl in *. constructor; [lra | exact IH].
Qed.

End EventLoop.

Lemma event_loop_clock_is_monotone_witness :
  let r := Analytical.run_events inert 2 queue_after_A_B_C in
  Forall (Qle (Analytical.clock queue_after_A_B_C)) (map fst (fst r)) /\
  StronglySorted Qle (map fst (fst r)) /\
  Forall (fun t => (t <= Analytical.clock (snd r))%Q) (map fst (fst r)).
Proof.
  apply (event_loop_clock_is_monotone inert).
  - intros cb q. apply Analytical.calls_none.
  - eapply Analytical.calls_more; [eapply Analytical.calls_more;
      [eapply Analytical.calls_more; [apply Analytical.calls_none |] |] |].
    + apply Analytical.call_schedule with (delay := 5%Q) (cb := "A"%string). reflexivity.
    + apply Analytical.call_schedule with (delay := 5%Q) (cb := "B"%string). reflexivity.
    + apply Analytical.call_schedule with (delay := 3%Q) (cb := "C"%string). reflexivity.
Defined.

Section EventLoopDrains.

Import Analytical.

Context {Callback : Type}.

Lemma remove_entry_permutation (l : list (EventQueueEntry Callback)) m :
  NoDup (map sequence_number l) -> In m l ->
  Permutation l (m :: remove_entry (sequence_number m) l).
Proof.
  induction l as [| e l IH]; intros Hnodup Hin; [destruct Hin |].
  simpl. destruct (Nat.eqb_spec (sequence_number e) (sequence_number m)) as [Heq | Hne].
  - assert (e = m).
    { eapply same_number_same_entry; [exact Hnodup | now left | exact Hin | exact Heq]. }
    subst. apply Permutation_refl.
  - destruct Hin as [-> | Hin]; [congruence |].
    inversion Hnodup as [| ? ? _ Hrest]; subst.
    apply perm_trans with (e :: m :: remove_entry (sequence_number m) l);
      [apply perm_skip, IH; assumption | apply perm_swap].
Qed.

(** X12.  When the callbacks schedule nothing, the event loop of lines
    339-341 ends: given at least as many iterations as there are pending
    entries, it runs every pending callback exactly once and leaves the queue
    empty. *)
Theorem event_loop_drains_the_queue fuel : forall q : EventQueue Callback,
  calls new_queue q ->
  (length (entries q) <= fuel)%nat ->
  Permutation (map snd (fst (run_events inert fuel q))) (map callback (entries q)) /\
  empty (snd (run_events inert fuel q)) = true.
Proof.
  intros q Hcalls.
  destruct (invariant_calls _ _ invariant_new Hcalls) as [Hinv _].
  clear Hcalls. revert q Hinv.
  induction fuel as [| fuel IH]; intros q Hinv Hfuel.
  - simpl. unfold empty. destruct (entries q); simpl in *; [| lia].
    split; [apply perm_nil | reflexivity].
  - simpl. destruct (empty q) eqn:Hempty.
    { simpl. split; [| exact Hempty].
      unfold empty in Hempty. destruct (entries q); [apply perm_nil | discriminate]. }
    destruct (proceed q) as [q' [m |]] eqn:Hp.
    + destruct (proceed_least q q' m Hinv Hp) as (Hin & _ & _ & _ & Hinv').
      assert (Hq' : entries q' = remove_entry (sequence_number m) (entries q)).
      { unfold proceed in Hp. destruct (entries q) eqn:E; [discriminate |].
        inversion Hp. subst. reflexivity. }
      pose proof (remove_entry_permutation (entries q) m (proj2 Hinv) Hin) as Hperm.
      assert (Hlen : length (entries q) = S (length (entries q'))).
      { rewrite (Permutation_length Hperm), Hq'. reflexivity. }
      change (inert (callback m) q') with q'.
      destruct (IH q' Hinv') as [Hfired Hdone]; [lia |].
      destruct (run_events inert fuel q') as [fired final].
      cbn [fst snd map] in *.
      split; [| exact Hdone].
      apply perm_trans with (callback m :: map callback (entries q'));
        [apply perm_skip; exact Hfired |].
      rewrite Hq'. symmetry.
      change (callback m :: map callback (remove_entry (sequence_number m) (entries q)))
        with (map callback (m :: remove_entry (sequence_number m) (entries q))).
      apply Permutation_map. exact Hperm.
    + unfold proceed in Hp. unfold empty in Hempty.
      destruct (entries q); discriminate.
Qed.

End EventLoopDrains.

Lemma event_loop_drains_the_queue_witness :
  Permutation
    (map snd (fst (Analytical.run_events inert 3 queue_after_A_B_C)))
    (map Analytical.callback (Analytical.entries queue_after_A_B_C)) /\
  Analytical.empty (snd (Analytical.run_events inert 3 queue_after_A_B_C)) = true.
Proof.
  apply (event_loop_drains_the_queue 3 queue_after_A_B_C).
  - eapply Analytical.calls_more; [eapply Analytical.calls_more;
      [eapply Analytical.calls_more; [apply Analytical.calls_none |] |] |].
    + apply Analytical.call_schedule with (delay := 5%Q) (cb := "A"%string). reflexivity.
    + apply Analytical.call_schedule with (delay := 5%Q) (cb := "B"%string). reflexivity.
    + apply Analytical.call_schedule with (delay := 3%Q) (cb := "C"%string). reflexivity.
  - simpl. lia.
Defined.
